(** * Hotel booking engine (hotel.py): model and verification

    The booking logic of [hotel.py] keeps its state in two SQLite tables,
    [rooms] and [bookings], and offers four operations on them:
    [available_rooms], [create_booking], [cancel_booking] and
    [list_bookings].  This file embeds the tables as lists of rows in rowid
    order, the SQL statements as list programs, the Python functions as
    computations in a small state-and-exception monad, and proves the
    properties of the booking engine over that embedding. *)

From Stdlib Require Import ZArith List String Ascii Bool Lia.
From Stdlib Require Import Sorted Permutation QArith.
Import ListNotations.

Local Open Scope string_scope.
Local Open Scope list_scope.
Local Open Scope Z_scope.

(* ------------------------------------------------------------------ *)
(** ** Calendar dates: [datetime.date] *)

Module Date.

Record date := mkDate { year : Z; month : Z; day : Z }.

Definition is_leap (y : Z) : bool :=
  (y mod 4 =? 0) && (negb (y mod 100 =? 0) || (y mod 400 =? 0)).

Definition days_in_month (y m : Z) : Z :=
  if m =? 2 then (if is_leap y then 29 else 28)
  else if (m =? 4) || (m =? 6) || (m =? 9) || (m =? 11) then 30
  else 31.

(** The range check of the [date] constructor: MINYEAR = 1,
    MAXYEAR = 9999. *)
Definition valid (y m d : Z) : bool :=
  (1 <=? y) && (y <=? 9999) && (1 <=? m) && (m <=? 12)
  && (1 <=? d) && (d <=? days_in_month y m).

(** Dates compare as the triples (year, month, day). *)
Definition compare (a b : date) : comparison :=
  match year a ?= year b with
  | Eq => match month a ?= month b with
          | Eq => day a ?= day b
          | c => c
          end
  | c => c
  end.

Definition leb (a b : date) : bool :=
  match compare a b with Gt => false | _ => true end.

Definition ltb (a b : date) : bool :=
  match compare a b with Lt => true | _ => false end.

(** Two half-open intervals [[a1, a2)] and [[b1, b2)] of dates
    intersect. *)
Definition intersect (a1 a2 b1 b2 : date) : bool :=
  ltb a1 b2 && ltb b1 a2.

End Date.

(* ------------------------------------------------------------------ *)
(** ** Characters of a Python [str]

    A string of the model is the UTF-8 encoding of the Python [str]: its
    bytes are what SQLite stores and compares, its code points are what
    [strptime], [str.strip] and [int] look at.  The tables are those of
    Unicode 14.0, the version of Python 3.11. *)

Module Unicode.

Definition byte (c : ascii) : Z := Z.of_N (N_of_ascii c).

(** The payload of a continuation byte [10xxxxxx]. *)
Definition cont (c : ascii) : option Z :=
  let b := byte c in
  if (128 <=? b) && (b <? 192) then Some (b - 128) else None.

(** The first code point of a string and what follows it; nothing at the
    end of the string or on bytes that encode no character. *)
Definition decode (s : string) : option (Z * string) :=
  match s with
  | EmptyString => None
  | String c0 s1 =>
      let b0 := byte c0 in
      if b0 <? 128 then Some (b0, s1)
      else if (192 <=? b0) && (b0 <? 224) then
        match s1 with
        | String c1 s2 =>
            match cont c1 with
            | Some x1 => Some ((b0 - 192) * 64 + x1, s2)
            | None => None
            end
        | _ => None
        end
      else if (224 <=? b0) && (b0 <? 240) then
        match s1 with
        | String c1 (String c2 s3) =>
            match cont c1, cont c2 with
            | Some x1, Some x2 =>
                Some ((b0 - 224) * 4096 + x1 * 64 + x2, s3)
            | _, _ => None
            end
        | _ => None
        end
      else if (240 <=? b0) && (b0 <? 248) then
        match s1 with
        | String c1 (String c2 (String c3 s4)) =>
            match cont c1, cont c2, cont c3 with
            | Some x1, Some x2, Some x3 =>
                Some ((b0 - 240) * 262144 + x1 * 4096 + x2 * 64 + x3, s4)
            | _, _, _ => None
            end
        | _ => None
        end
      else None
  end.

Definition chr (b : Z) : ascii := ascii_of_N (Z.to_N b).

(** The UTF-8 encoding of a code point. *)
Definition encode (cp : Z) : string :=
  if cp <? 128 then String (chr cp) EmptyString
  else if cp <? 2048 then
    String (chr (192 + cp / 64)) (String (chr (128 + cp mod 64)) EmptyString)
  else if cp <? 65536 then
    String (chr (224 + cp / 4096))
      (String (chr (128 + cp / 64 mod 64))
        (String (chr (128 + cp mod 64)) EmptyString))
  else
    String (chr (240 + cp / 262144))
      (String (chr (128 + cp / 4096 mod 64))
        (String (chr (128 + cp / 64 mod 64))
          (String (chr (128 + cp mod 64)) EmptyString))).

(** The code points of the digit zero of every decimal number system
    (general category Nd); the nine that follow each are its digits 1 to
    9. *)
Definition decimal_zeros : list Z :=
  [48; 1632; 1776; 1984; 2406; 2534; 2662; 2790; 2918; 3046; 3174; 3302;
   3430; 3558; 3664; 3792; 3872; 4160; 4240; 6112; 6160; 6470; 6608; 6784;
   6800; 6992; 7088; 7232; 7248; 42528; 43216; 43264; 43472; 43504; 43600;
   44016; 65296; 66720; 68912; 69734; 69872; 69942; 70096; 70384; 70736;
   70864; 71248; 71360; 71472; 71904; 72016; 72784; 73040; 73120; 92768;
   92864; 93008; 120782; 120792; 120802; 120812; 120822; 123200; 123632;
   125264; 130032].

(** The value of a decimal digit: the regular expression [\d] matches it,
    [int] reads it. *)
Definition decimal (cp : Z) : option Z :=
  option_map (fun zero => cp - zero)
    (find (fun zero => (zero <=? cp) && (cp <=? zero + 9)) decimal_zeros).

(** The characters [str.isspace] holds of, which [str.strip] removes. *)
Definition spaces : list Z :=
  [9; 10; 11; 12; 13; 28; 29; 30; 31; 32; 133; 160; 5760;
   8192; 8193; 8194; 8195; 8196; 8197; 8198; 8199; 8200; 8201; 8202;
   8232; 8233; 8239; 8287; 12288].

Definition is_space (cp : Z) : bool := existsb (Z.eqb cp) spaces.

(** A string cut into its characters, each with its code point; a byte
    that starts no character stands alone, with no code point. *)
Fixpoint chars_upto (n : nat) (s : string) : list (option Z * string) :=
  match n with
  | O => []
  | S n' =>
      match s with
      | EmptyString => []
      | String c rest =>
          match decode s with
          | Some (cp, rest') =>
              (Some cp,
               substring 0 (String.length s - String.length rest') s)
              :: chars_upto n' rest'
          | None => (None, String c EmptyString) :: chars_upto n' rest
          end
      end
  end.

Definition chars (s : string) : list (option Z * string) :=
  chars_upto (String.length s) s.

End Unicode.

(* ------------------------------------------------------------------ *)
(** ** [datetime.strptime(s, "%Y-%m-%d")]

    The format compiles to the regular expression
    [(?P<Y>\d\d\d\d)-(?P<m>1[0-2]|0[1-9]|[1-9])-(?P<d>3[0-1]|[1-2]\d|0[1-9]|[1-9]| [1-9])],
    which is matched at the start of the string; the whole string must be
    consumed, and the three numbers must form a calendar date.
    Alternatives are tried in the order written, with backtracking, which
    the list of candidates below reproduces.  [\d] matches the decimal
    digits of every script, the classes [[0-9]] only the ASCII ones. *)

Module Strptime.

Definition code (c : ascii) : Z := Z.of_N (N_of_ascii c).

Definition in_range (lo hi : Z) (c : ascii) : bool :=
  (lo <=? code c - 48) && (code c - 48 <=? hi).

Definition digit (c : ascii) : Z := code c - 48.

(** Candidates of a pattern piece: the value read and the rest of the
    input, in the order the regex engine tries them. *)
Definition cands := list (Z * string).

(** [\d] *)
Definition any_digit (s : string) : cands :=
  match Unicode.decode s with
  | Some (cp, rest) =>
      match Unicode.decimal cp with
      | Some v => [(v, rest)]
      | None => []
      end
  | None => []
  end.

(** [\d\d\d\d] *)
Definition re_Y (s : string) : cands :=
  flat_map (fun '(a, s1) =>
    flat_map (fun '(b, s2) =>
      flat_map (fun '(c, s3) =>
        map (fun '(d, s4) => (1000 * a + 100 * b + 10 * c + d, s4))
            (any_digit s3))
      (any_digit s2))
    (any_digit s1))
  (any_digit s).

Definition two (lo1 hi1 lo2 hi2 : Z) (s : string) : cands :=
  match s with
  | String a (String b rest) =>
      if in_range lo1 hi1 a && in_range lo2 hi2 b
      then [(10 * digit a + digit b, rest)] else []
  | _ => []
  end.

Definition one (lo hi : Z) (s : string) : cands :=
  match s with
  | String a rest => if in_range lo hi a then [(digit a, rest)] else []
  | _ => []
  end.

Definition space_one (s : string) : cands :=
  match s with
  | String a (String b rest) =>
      if (code a =? 32) && in_range 1 9 b then [(digit b, rest)] else []
  | _ => []
  end.

(** [1[0-2]|0[1-9]|[1-9]] *)
Definition re_m (s : string) : cands :=
  two 1 1 0 2 s ++ two 0 0 1 9 s ++ one 1 9 s.

(** [[1-2]\d] *)
Definition one_then_digit (lo hi : Z) (s : string) : cands :=
  flat_map (fun '(a, s1) => map (fun '(b, s2) => (10 * a + b, s2))
                                (any_digit s1))
           (one lo hi s).

(** [3[0-1]|[1-2]\d|0[1-9]|[1-9]| [1-9]] *)
Definition re_d (s : string) : cands :=
  two 3 3 0 1 s ++ one_then_digit 1 2 s ++ two 0 0 1 9 s ++ one 1 9 s
  ++ space_one s.

Definition dash (s : string) : list string :=
  match s with
  | String c rest => if code c =? 45 then [rest] else []
  | _ => []
  end.

(** The pattern after the year: [-(?P<m>...)-(?P<d>...)]. *)
Definition after_year (y : Z) (s1 : string) : list (Z * Z * Z * string) :=
  flat_map (fun s2 =>
    flat_map (fun '(m, s3) =>
      flat_map (fun s4 =>
        map (fun '(d, s5) => (y, m, d, s5)) (re_d s4))
      (dash s3))
    (re_m s2))
  (dash s1).

(** All the ways the pattern matches a prefix of [s], first match
    first. *)
Definition matches (s : string) : list (Z * Z * Z * string) :=
  flat_map (fun '(y, s1) => after_year y s1) (re_Y s).

Definition strptime (s : string) : option Date.date :=
  match matches s with
  | [] => None                                   (* does not match format *)
  | (y, m, d, rest) :: _ =>
      match rest with
      | EmptyString =>
          if Date.valid y m d then Some (Date.mkDate y m d)
          else None                              (* out of range *)
      | _ => None                                (* unconverted data remains *)
      end
  end.

End Strptime.

(** [hotel.py], line 55. *)
Definition parse_date (date_str : string) : option Date.date :=
  Strptime.strptime date_str.

(* ------------------------------------------------------------------ *)
(** ** The two tables of [SCHEMA]

    A table is the list of its rows in rowid order, the order in which
    SQLite scans it.  Columns declared TEXT are strings, [INTEGER] columns
    are integers, the nullable [cancelled_at] is an option. *)

Record room := mkRoom {
  r_id : Z;
  r_room_type : string;
  r_room_number : string;
  r_price : Q
}.

Record booking := mkBooking {
  b_id : Z;
  b_room_id : Z;
  b_guest_name : string;
  b_check_in : string;
  b_check_out : string;
  b_status : string;
  b_created_at : string;
  b_cancelled_at : option string
}.

Record db := mkDb {
  rooms : list room;
  bookings : list booking
}.

(** A row of [list_bookings]: [b.*, r.room_type, r.room_number, r.price]. *)
Record listing := mkListing {
  l_booking : booking;
  l_room_type : string;
  l_room_number : string;
  l_price : Q
}.

(* ------------------------------------------------------------------ *)
(** ** SQL expressions and statements used by the engine *)

Module Sql.

(** Comparison of TEXT values under the BINARY collation: bytewise,
    a proper prefix is smaller. *)
Definition text_le (a b : string) : bool := String.leb a b.
Definition text_ge (a b : string) : bool := String.leb b a.

(** [INTEGER PRIMARY KEY AUTOINCREMENT]: one more than the largest
    rowid; rows are never deleted, so this is the largest rowid ever
    used. *)
Definition next_rowid (ids : list Z) : Z := 1 + fold_right Z.max 0 ids.

(** [status='active' AND NOT (check_out <= ? OR check_in >= ?)] *)
Definition blocks (check_in check_out : string) (b : booking) : bool :=
  (b_status b =? "active")%string
  && negb (text_le (b_check_out b) check_in
           || text_ge (b_check_in b) check_out).

(** [SELECT room_id FROM bookings WHERE status='active' AND NOT (...)] *)
Definition blocked_rooms (bs : list booking) (check_in check_out : string)
  : list Z :=
  map b_room_id (filter (blocks check_in check_out) bs).

Definition not_in (x : Z) (l : list Z) : bool := negb (existsb (Z.eqb x) l).

(** [SELECT * FROM rooms WHERE room_type = ? AND id NOT IN (...)] *)
Definition select_available (d : db) (room_type check_in check_out : string)
  : list room :=
  filter (fun r => (r_room_type r =? room_type)%string
                   && not_in (r_id r)
                        (blocked_rooms (bookings d) check_in check_out))
         (rooms d).

(** [INSERT INTO bookings (...) VALUES (?,?,?,?, 'active', ?)], with
    [cur.lastrowid]. *)
Definition insert_booking (d : db) (room_id : Z)
    (guest_name check_in check_out now : string) : Z * db :=
  let new_id := next_rowid (map b_id (bookings d)) in
  (new_id,
   mkDb (rooms d)
        (bookings d ++
         [mkBooking new_id room_id guest_name check_in check_out
                    "active" now None])).

(** [SELECT status FROM bookings WHERE id=?], [fetchone()] *)
Definition select_status (d : db) (booking_id : Z) : option string :=
  option_map b_status (find (fun b => b_id b =? booking_id) (bookings d)).

(** [UPDATE bookings SET status=?, cancelled_at=? WHERE id=?] *)
Definition set_row (status now : string) (booking_id : Z) (b : booking)
  : booking :=
  if b_id b =? booking_id
  then mkBooking (b_id b) (b_room_id b) (b_guest_name b) (b_check_in b)
                 (b_check_out b) status (b_created_at b) (Some now)
  else b.

Definition update_status (d : db) (status now : string) (booking_id : Z)
  : db :=
  mkDb (rooms d) (map (set_row status now booking_id) (bookings d)).

(** [bookings b JOIN rooms r ON r.id = b.room_id] *)
Definition join (d : db) : list listing :=
  flat_map (fun b =>
    map (fun r => mkListing b (r_room_type r) (r_room_number r) (r_price r))
        (filter (fun r => r_id r =? b_room_id b) (rooms d)))
    (bookings d).

(** [ORDER BY b.created_at DESC]: rows with equal keys keep the order of
    the scan. *)
Fixpoint insert_desc (x : listing) (l : list listing) : list listing :=
  match l with
  | [] => [x]
  | y :: l' =>
      if text_le (b_created_at (l_booking y)) (b_created_at (l_booking x))
      then x :: l
      else y :: insert_desc x l'
  end.

Definition order_by_created_at_desc (l : list listing) : list listing :=
  fold_right insert_desc [] l.

(** [INSERT INTO rooms (room_type, room_number, price) VALUES (?,?,?)] *)
Definition insert_room (rs : list room) (row : string * string * Q)
  : list room :=
  let '(ty, num, p) := row in
  rs ++ [mkRoom (next_rowid (map r_id rs)) ty num p].

End Sql.

(* ------------------------------------------------------------------ *)
(** ** Computations over the database that may raise *)

Inductive error :=
| InvalidDate        (* ValueError raised by strptime in parse_date *)
| InvalidRange       (* ValueError("check_out must be after check_in") *)
| NoAvailability     (* ValueError("No available rooms of type ...") *)
| NotFound           (* ValueError("Booking not found") *)
| AlreadyCancelled   (* ValueError("Booking already cancelled") *)
| OverflowError.     (* raised by sqlite3: the int does not fit 64 bits *)

Inductive outcome (A : Type) :=
| Ok (a : A)
| Raise (e : error).
Arguments Ok {A} a.
Arguments Raise {A} e.

Definition M (A : Type) : Type := db -> outcome A * db.

Definition ret {A} (a : A) : M A := fun d => (Ok a, d).
Definition raise {A} (e : error) : M A := fun d => (Raise e, d).
Definition bind {A B} (m : M A) (k : A -> M B) : M B :=
  fun d => match m d with
           | (Ok a, d') => k a d'
           | (Raise e, d') => (Raise e, d')
           end.
Definition query {A} (q : db -> A) : M A := fun d => (Ok (q d), d).
Definition execute {A} (stmt : db -> A * db) : M A :=
  fun d => let '(a, d') := stmt d in (Ok a, d').
Definition of_option {A} (e : error) (o : option A) : M A :=
  match o with Some a => ret a | None => raise e end.

Declare Scope hotel_scope.
Delimit Scope hotel_scope with hotel.
Notation "x <- m ;; k" := (bind m (fun x => k))
  (at level 61, m at next level, right associativity) : hotel_scope.
Notation "m ;;; k" := (bind m (fun _ => k))
  (at level 61, right associativity) : hotel_scope.
Local Open Scope hotel_scope.

(* ------------------------------------------------------------------ *)
(** ** The booking logic of [hotel.py] *)

Definition seed_rooms : list (string * string * Q) :=
  [ ("Single", "S101", 1500 # 1);
    ("Single", "S102", 1500 # 1);
    ("Double", "D201", 2500 # 1);
    ("Double", "D202", 2500 # 1);
    ("Deluxe", "L301", 4500 # 1) ].

(** The database file before [SCHEMA] has populated it. *)
Definition empty_db : db := mkDb [] [].

(** [init_db], lines 38-51. *)
Definition init_db (d : db) : db :=
  if Z.of_nat (List.length (rooms d)) =? 0
  then mkDb (fold_left Sql.insert_room seed_rooms (rooms d)) (bookings d)
  else d.

(** [available_rooms], lines 58-68. *)
Definition available_rooms (room_type check_in check_out : string)
  : M (list room) :=
  query (fun d => Sql.select_available d room_type check_in check_out).

(** [create_booking], lines 70-88.  [now] is the reading of
    [datetime.utcnow().isoformat()] at line 79. *)
Definition create_booking (guest_name room_type check_in check_out : string)
    (now : string) : M (Z * room) :=
  ci <- of_option InvalidDate (parse_date check_in) ;;
  co <- of_option InvalidDate (parse_date check_out) ;;
  if Date.leb co ci then raise InvalidRange
  else
    avail <- available_rooms room_type check_in check_out ;;
    match avail with
    | [] => raise NoAvailability
    | room :: _ =>
        booking_id <- execute (fun d =>
          Sql.insert_booking d (r_id room) guest_name check_in check_out now) ;;
        ret (booking_id, room)
    end.

(** [cancel_booking], lines 90-101.  [now] is the reading of the clock at
    line 99. *)
Definition cancel_booking (booking_id : Z) (now : string) : M bool :=
  row <- query (fun d => Sql.select_status d booking_id) ;;
  match row with
  | None => raise NotFound
  | Some status =>
      if (status =? "cancelled")%string then raise AlreadyCancelled
      else
        execute (fun d =>
          (tt, Sql.update_status d "cancelled" now booking_id)) ;;;
        ret true
  end.

(** An integer that fits SQLite's signed 64-bit INTEGER. *)
Definition fits_int64 (i : Z) : bool :=
  (- 2 ^ 63 <=? i) && (i <? 2 ^ 63).

(** [cancel_booking] as a caller reaches it with any Python int: to run
    the SELECT of line 93 the driver binds the identifier as an INTEGER and
    raises OverflowError when it does not fit, before anything is read or
    written.  [cancel_booking] above is the function on the identifiers
    that fit. *)
Module Driver.

Definition cancel_booking (booking_id : Z) (now : string) : M bool :=
  if fits_int64 booking_id then cancel_booking booking_id now
  else raise OverflowError.

End Driver.

(** Truth value of the optional [status] argument: [None] and the empty
    string are false. *)
Definition truthy (status : option string) : bool :=
  match status with
  | None => false
  | Some s => negb (s =? "")%string
  end.

(** [list_bookings], lines 103-115. *)
Definition list_bookings (status : option string) : M (list listing) :=
  match status with
  | Some s =>
      if truthy status
      then query (fun d =>
             Sql.order_by_created_at_desc
               (filter (fun l => (b_status (l_booking l) =? s)%string)
                       (Sql.join d)))
      else query (fun d => Sql.order_by_created_at_desc (Sql.join d))
  | None => query (fun d => Sql.order_by_created_at_desc (Sql.join d))
  end.

(** *** Sequences of engine calls *)

Inductive op :=
| CreateBooking (guest_name room_type check_in check_out now : string)
| CancelBooking (booking_id : Z) (now : string).

Definition exec (o : op) (d : db) : db :=
  match o with
  | CreateBooking g t ci co now => snd (create_booking g t ci co now d)
  | CancelBooking i now => snd (cancel_booking i now d)
  end.

Definition run (ops : list op) (d : db) : db :=
  fold_left (fun d o => exec o d) ops d.

Definition seeded : db := init_db empty_db.

(* ------------------------------------------------------------------ *)
(** ** Predicates on rows and states *)

Definition active (b : booking) : bool := (b_status b =? "active")%string.

(** Overlap of two [check_in, check_out) pairs as the availability query
    tests it, on the stored TEXT. *)
Definition text_overlap (ci1 co1 ci2 co2 : string) : bool :=
  negb (Sql.text_le co1 ci2 || Sql.text_ge ci1 co2).

(** Overlap of the calendar intervals the stored strings denote. *)
Definition date_overlap (ci1 co1 ci2 co2 : string) : bool :=
  match parse_date ci1, parse_date co1, parse_date ci2, parse_date co2 with
  | Some a1, Some a2, Some b1, Some b2 => Date.intersect a1 a2 b1 b2
  | _, _, _, _ => false
  end.

Definition same_room_active (b1 b2 : booking) : Prop :=
  active b1 = true /\ active b2 = true /\ b_room_id b1 = b_room_id b2.

(** I1 of the data model: two distinct active bookings of one room never
    overlap in time. *)
Definition no_overlap (d : db) : Prop :=
  forall b1 b2,
    In b1 (bookings d) -> In b2 (bookings d) -> b_id b1 <> b_id b2 ->
    same_room_active b1 b2 ->
    date_overlap (b_check_in b1) (b_check_out b1)
                 (b_check_in b2) (b_check_out b2) = false.

Definition range_valid (b : booking) : Prop :=
  exists ci co,
    parse_date (b_check_in b) = Some ci /\
    parse_date (b_check_out b) = Some co /\
    Date.ltb ci co = true.

Definition status_ok (b : booking) : Prop :=
  (b_status b = "active" /\ b_cancelled_at b = None) \/
  (b_status b = "cancelled" /\ b_cancelled_at b <> None).

Definition text_disjoint (b1 b2 : booking) : Prop :=
  same_room_active b1 b2 ->
  text_overlap (b_check_in b1) (b_check_out b1)
               (b_check_in b2) (b_check_out b2) = false.

Definition room_lt (a b : room) : Prop := r_id a < r_id b.
Definition booking_lt (a b : booking) : Prop := b_id a < b_id b.

(** What the schema and the engine maintain. *)
Record Inv (d : db) : Prop := mkInv {
  inv_rooms : StronglySorted room_lt (rooms d);
  inv_ids : StronglySorted booking_lt (bookings d);
  inv_pos : Forall (fun b => 0 < b_id b) (bookings d);
  inv_status : Forall status_ok (bookings d);
  inv_ref : Forall (fun b => In (b_room_id b) (map r_id (rooms d))) (bookings d);
  inv_range : Forall range_valid (bookings d);
  inv_text : ForallOrdPairs text_disjoint (bookings d)
}.

(** A catalog with an empty ledger. *)
Definition fresh (d : db) : Prop :=
  bookings d = [] /\ StronglySorted room_lt (rooms d).

Inductive reachable : db -> Prop :=
| reach_fresh d : fresh d -> reachable d
| reach_exec d o : reachable d -> reachable (exec o d).

(* ------------------------------------------------------------------ *)
(** ** Zero-padded dates: [date.isoformat()]

    On strings of the form YYYY-MM-DD the TEXT order of SQLite is the
    calendar order; [strptime] also accepts strings that are not of this
    form (a month or day of one digit). *)

Module Iso.

Definition digit_char (n : Z) : ascii := ascii_of_N (Z.to_N (48 + n)).

Definition two_digits (n : Z) (k : string) : string :=
  String (digit_char (n / 10 mod 10)) (String (digit_char (n mod 10)) k).

Definition four_digits (n : Z) (k : string) : string :=
  String (digit_char (n / 1000 mod 10))
    (String (digit_char (n / 100 mod 10)) (two_digits n k)).

(** ["%04d-%02d-%02d"] *)
Definition isoformat (d : Date.date) : string :=
  four_digits (Date.year d)
    (String "-" (two_digits (Date.month d)
      (String "-" (two_digits (Date.day d) EmptyString)))).

End Iso.

Definition zero_padded (s : string) : bool :=
  match parse_date s with
  | Some d => (s =? Iso.isoformat d)%string
  | None => false
  end.

Definition ledger_zero_padded (d : db) : Prop :=
  Forall (fun b => zero_padded (b_check_in b) = true /\
                   zero_padded (b_check_out b) = true) (bookings d).

Definition in_calendar (d : Date.date) : Prop :=
  1 <= Date.year d <= 9999 /\ 1 <= Date.month d <= 12 /\
  1 <= Date.day d <= 31.

(** Availability as the data model words it: the rooms of the requested
    type on which no active booking's calendar interval intersects the
    requested one. *)
Definition free_rooms (d : db) (room_type check_in check_out : string)
  : list room :=
  filter (fun r =>
    (r_room_type r =? room_type)%string
    && forallb (fun b =>
         negb (active b && (b_room_id b =? r_id r)
               && date_overlap (b_check_in b) (b_check_out b)
                    check_in check_out))
         (bookings d))
    (rooms d).

(** A request that passes the two checks on the dates. *)
Definition valid_request (check_in check_out : string) : Prop :=
  exists ci co,
    parse_date check_in = Some ci /\ parse_date check_out = Some co /\
    Date.ltb ci co = true.


(** *** Rows of [list_bookings] *)

(** The bookings a call of [list_bookings] selects. *)
Definition wanted (status : option string) (b : booking) : bool :=
  match status with
  | Some s => if truthy status then (b_status b =? s)%string else true
  | None => true
  end.

Definition newest_first (x y : listing) : Prop :=
  Sql.text_le (b_created_at (l_booking y)) (b_created_at (l_booking x)) = true.

(** The row carries the type, number and price of its booking's room. *)
Definition joined (d : db) (l : listing) : Prop :=
  exists r, In r (rooms d) /\ r_id r = b_room_id (l_booking l) /\
            l_room_type l = r_room_type r /\
            l_room_number l = r_room_number r /\
            l_price l = r_price r.

(* ------------------------------------------------------------------ *)
(** ** Two calls of [create_booking] at once

    [available_rooms] opens a connection, runs its SELECT and returns;
    [create_booking] then opens a second connection for the INSERT.  Each
    statement is one SQLite transaction; between the two the call holds
    neither a lock nor a transaction, so statements of another call may
    run there. *)

Module Concurrent.

(** Where a call of [create_booking] stands. *)
Inductive call :=
| Called (guest_name room_type check_in check_out : string)
| Selected (guest_name check_in check_out : string) (room : room)
| Returned (r : outcome (Z * room)).

(** The next transaction of a call: lines 71-78 up to the selection of
    [avail[0]], then lines 79-88. *)
Definition step (now : string) (c : call) (d : db) : call * db :=
  match c with
  | Called g t check_in check_out =>
      match parse_date check_in with
      | None => (Returned (Raise InvalidDate), d)
      | Some ci =>
          match parse_date check_out with
          | None => (Returned (Raise InvalidDate), d)
          | Some co =>
              if Date.leb co ci then (Returned (Raise InvalidRange), d)
              else
                match Sql.select_available d t check_in check_out with
                | [] => (Returned (Raise NoAvailability), d)
                | room :: _ => (Selected g check_in check_out room, d)
                end
          end
      end
  | Selected g check_in check_out room =>
      let '(booking_id, d') :=
        Sql.insert_booking d (r_id room) g check_in check_out now in
      (Returned (Ok (booking_id, room)), d')
  | Returned _ => (c, d)
  end.

Record state := mkState { st_db : db; st_a : call; st_b : call }.

(** Which call runs its next transaction, and what the clock reads. *)
Inductive turn :=
| TurnA (now : string)
| TurnB (now : string).

Definition take (t : turn) (s : state) : state :=
  match t with
  | TurnA now =>
      let '(c, d) := step now (st_a s) (st_db s) in mkState d c (st_b s)
  | TurnB now =>
      let '(c, d) := step now (st_b s) (st_db s) in mkState d (st_a s) c
  end.

Definition schedule (ts : list turn) (s : state) : state :=
  fold_left (fun s t => take t s) ts s.








End Concurrent.

(** The identifier and the two dates of a booking row. *)
Definition stay (b : booking) : Z * string * string :=
  (b_id b, b_check_in b, b_check_out b).

(** A cancelled copy of a booking row. *)
Definition cancelled_at (now : string) (b : booking) : booking :=
  mkBooking (b_id b) (b_room_id b) (b_guest_name b) (b_check_in b)
            (b_check_out b) "cancelled" (b_created_at b) (Some now).

Definition lookup (d : db) (booking_id : Z) : option booking :=
  find (fun b => b_id b =? booking_id) (bookings d).

(** Cancelling an identifier that no booking has raises NotFound. *)
Definition absent_is_not_found : Prop :=
  forall d i now,
    reachable d -> lookup d i = None ->
    Driver.cancel_booking i now d = (Raise NotFound, d).

(** The dates of a request are written YYYY-MM-DD. *)
Definition op_zero_padded (o : op) : Prop :=
  match o with
  | CreateBooking _ _ check_in check_out _ =>
      zero_padded check_in = true /\ zero_padded check_out = true
  | CancelBooking _ _ => True
  end.

(** The booking row [create_booking] inserts. *)
Definition new_booking (d : db) (room : room)
    (guest_name check_in check_out now : string) : booking :=
  mkBooking (Sql.next_rowid (map b_id (bookings d))) (r_id room) guest_name
            check_in check_out "active" now None.

(* ------------------------------------------------------------------ *)
(** ** Further notions for the engine *)

(** The identifiers 1, 2, ..., n. *)
Definition ids_upto (n : nat) : list Z := map Z.of_nat (seq 1 n).

(** The rows a call of [list_bookings] returns. *)
Definition listed (status : option string) (d : db) : list listing :=
  match fst (list_bookings status d) with
  | Ok rows => rows
  | Raise _ => []
  end.

(** The row of [list_bookings] for booking [b] in room [r]. *)
Definition listing_of (b : booking) (r : room) : listing :=
  mkListing b (r_room_type r) (r_room_number r) (r_price r).

(* ------------------------------------------------------------------ *)
(** ** The console: [main_menu], lines 173-225

    Standard input is the list of the lines typed; what [print] writes is
    kept as data, one [output] per call (the prompts of [input] are left
    out).  Reading past the last line is the [EOFError] that ends the
    program.  The report files lie outside the database and are not
    modelled: an export reads the bookings and hands back its path. *)

Module Console.

Fixpoint drop_while {A : Type} (p : A -> bool) (l : list A) : list A :=
  match l with
  | [] => []
  | x :: l' => if p x then drop_while p l' else l
  end.

Definition is_space (c : option Z * string) : bool :=
  match fst c with
  | Some cp => Unicode.is_space cp
  | None => false
  end.

(** [str.strip()]: the whitespace characters at both ends are removed. *)
Definition strip (s : string) : string :=
  String.concat ""
    (map snd
       (rev (drop_while is_space (rev (drop_while is_space (Unicode.chars s)))))).

(** Whitespace as [int] skips it around the number: the ASCII characters
    tab to carriage return and the blank, and the whitespace beyond
    ASCII. *)
Definition int_space (c : option Z) : bool :=
  match c with
  | Some cp =>
      ((9 <=? cp) && (cp <=? 13)) || (cp =? 32)
      || ((127 <=? cp) && Unicode.is_space cp)
  | None => false
  end.

Definition decimal_of (c : option Z) : option Z :=
  match c with
  | Some cp => Unicode.decimal cp
  | None => None
  end.

Definition is_underscore (c : option Z) : bool :=
  match c with
  | Some cp => cp =? 95
  | None => false
  end.

(** Decimal digits with single underscores between them, then nothing but
    whitespace: the number and how many digits it has. *)
Fixpoint digits (acc count : Z) (after_digit : bool) (cs : list (option Z))
  : option (Z * Z) :=
  match cs with
  | [] => if after_digit then Some (acc, count) else None
  | c :: cs' =>
      match decimal_of c with
      | Some v => digits (10 * acc + v) (count + 1) true cs'
      | None =>
          if is_underscore c && after_digit then digits acc count false cs'
          else if after_digit && forallb int_space cs then Some (acc, count)
          else None
      end
  end.

(** [sys.int_info.default_max_str_digits] *)
Definition max_str_digits : Z := 4300.

Definition number (cs : list (option Z)) : option Z :=
  match digits 0 0 false cs with
  | Some (n, count) => if count <=? max_str_digits then Some n else None
  | None => None
  end.

(** [int(s)] on a string; [None] is the ValueError. *)
Definition py_int (s : string) : option Z :=
  match drop_while int_space (map fst (Unicode.chars s)) with
  | Some 43 :: r => number r
  | Some 45 :: r => option_map Z.opp (number r)
  | cs => number cs
  end.

(** An integer SQLite can bind; outside, [sqlite3] raises OverflowError. *)
Definition fits_int64 (i : Z) : bool :=
  (- 2 ^ 63 <=? i) && (i <? 2 ^ 63).

(** The exception behind an error message: one the engine raises, or
    another (from [int], [sqlite3] or the missing PDF library). *)
Inductive failure :=
| Engine (e : error)
| Other.

Inductive output :=
| Menu
| BookingCreated (booking_id : Z) (room_number : string)
| BookingCancelled
| Error (f : failure)
| BookingLine (l : listing)
| Formats
| ReportSaved (path : string)
| Goodbye
| InvalidChoice.

Inductive exit :=
| Quit
| EOFError.

Record env := mkEnv {
  reportlab : bool;          (* the import at line 145 succeeded *)
  clock : nat -> string      (* [datetime.utcnow().isoformat()], by turn *)
}.

Definition session : Type := list output * db * exit.

Definition printed (r : session) : list output := fst (fst r).
Definition final_db (r : session) : db := snd (fst r).
Definition ended (r : session) : exit := snd r.

Definition say (o : list output) (r : session) : session :=
  (o ++ printed r, final_db r, ended r).

(** [export_bookings_csv()], [export_bookings_txt()] and
    [export_bookings_pdf()] with their default arguments. *)
Definition export_bookings (path : string) : M string :=
  (_ <- list_bookings None ;; ret path)%hotel.

Definition report (E : env) (opt : string) (d : db) : list output * db :=
  if (opt =? "1")%string then
    match export_bookings "bookings_report.csv" d with
    | (Ok path, d') => ([ReportSaved path], d')
    | (Raise e, d') => ([], d')
    end
  else if (opt =? "2")%string then
    match export_bookings "bookings_report.txt" d with
    | (Ok path, d') => ([ReportSaved path], d')
    | (Raise e, d') => ([], d')
    end
  else if (opt =? "3")%string then
    if reportlab E then
      match export_bookings "bookings_report.pdf" d with
      | (Ok path, d') => ([ReportSaved path], d')
      | (Raise e, d') => ([Error (Engine e)], d')
      end
    else ([Error Other], d)
  else ([], d).

(** Choice 2, after the identifier is read. *)
Definition cancel_choice (now bid : string) (d : db) : output * db :=
  match py_int bid with
  | None => (Error Other, d)
  | Some i =>
      if fits_int64 i then
        match cancel_booking i now d with
        | (Ok _, d') => (BookingCancelled, d')
        | (Raise e, d') => (Error (Engine e), d')
        end
      else (Error Other, d)
  end.

(** Choice 1, after the four answers are read. *)
Definition create_choice (now guest room_type check_in check_out : string)
    (d : db) : output * db :=
  match create_booking guest room_type check_in check_out now d with
  | (Ok (booking_id, room), d') =>
      (BookingCreated booking_id (r_room_number room), d')
  | (Raise e, d') => (Error (Engine e), d')
  end.

Fixpoint main_menu (E : env) (turn : nat) (stdin : list string) (d : db)
  : session :=
  match stdin with
  | [] => ([Menu], d, EOFError)
  | line :: rest =>
      let choice := strip line in
      if (choice =? "1")%string then
        match rest with
        | guest :: room_type :: check_in :: check_out :: rest' =>
            let '(o, d') :=
              create_choice (clock E turn) guest room_type check_in check_out d
            in say [Menu; o] (main_menu E (S turn) rest' d')
        | _ => ([Menu], d, EOFError)
        end
      else if (choice =? "2")%string then
        match rest with
        | bid :: rest' =>
            let '(o, d') := cancel_choice (clock E turn) bid d in
            say [Menu; o] (main_menu E (S turn) rest' d')
        | [] => ([Menu], d, EOFError)
        end
      else if (choice =? "3")%string then
        say (Menu :: map BookingLine (listed None d))
            (main_menu E (S turn) rest (snd (list_bookings None d)))
      else if (choice =? "4")%string then
        match rest with
        | opt :: rest' =>
            let '(o, d') := report E (strip opt) d in
            say (Menu :: Formats :: o) (main_menu E (S turn) rest' d')
        | [] => ([Menu; Formats], d, EOFError)
        end
      else if (choice =? "5")%string then ([Menu; Goodbye], d, Quit)
      else say [Menu; InvalidChoice] (main_menu E (S turn) rest d)
  end.

(** The answers read at the prompt "Enter choice", in order. *)
Fixpoint choices (stdin : list string) : list string :=
  match stdin with
  | [] => []
  | line :: rest =>
      let choice := strip line in
      choice ::
      (if (choice =? "1")%string then
         match rest with
         | _ :: _ :: _ :: _ :: rest' => choices rest'
         | _ => []
         end
       else if ((choice =? "2") || (choice =? "4"))%string then
         match rest with
         | _ :: rest' => choices rest'
         | [] => []
         end
       else if (choice =? "5")%string then []
       else choices rest)
  end.

End Console.

(* ------------------------------------------------------------------ *)
(** ** The window: [HotelBookingApp] of [hotel_gui.py]

    Of the window only what its buttons compute is kept: the database and
    the rows of the table, as the values handed to [tree.insert].  A
    dialog is the message box a handler opens.  The selection is the list
    of the rows selected; the identifier read back from a selected row is
    the one that was inserted. *)

Module Gui.

(** The values of a table row, lines 111-112. *)
Record row := mkRow {
  v_id : Z;
  v_guest : string;
  v_room : string;
  v_checkin : string;
  v_checkout : string;
  v_status : string
}.

Definition row_of (l : listing) : row :=
  mkRow (b_id (l_booking l)) (b_guest_name (l_booking l))
        (l_room_type l ++ " " ++ l_room_number l)
        (b_check_in (l_booking l)) (b_check_out (l_booking l))
        (b_status (l_booking l)).

Record app := mkApp {
  database : db;
  tree : list row
}.

Inductive dialog :=
| ShowInfoCreated (booking_id : Z) (room_number : string)
| ShowInfoCancelled (booking_id : Z)
| ShowWarning
| ShowError (e : error).

(** [load_bookings], lines 107-112: the table is emptied and filled with
    the rows of [list_bookings()]. *)
Definition load_bookings (a : app) : app :=
  mkApp (snd (list_bookings None (database a)))
        (map row_of (listed None (database a))).

(** [create_booking], lines 69-80, with the contents of the four entry
    fields. *)
Definition create_booking_clicked (now guest rtype ci co : string) (a : app)
  : dialog * app :=
  match create_booking guest rtype ci co now (database a) with
  | (Ok (bid, room), d') =>
      (ShowInfoCreated bid (r_room_number room),
       load_bookings (mkApp d' (tree a)))
  | (Raise e, d') => (ShowError e, mkApp d' (tree a))
  end.

(** [cancel_booking], lines 114-125. *)
Definition cancel_booking_clicked (now : string) (selected : list row)
    (a : app) : dialog * app :=
  match selected with
  | [] => (ShowWarning, a)
  | first :: _ =>
      let bid := v_id first in
      match cancel_booking bid now (database a) with
      | (Ok _, d') => (ShowInfoCancelled bid, load_bookings (mkApp d' (tree a)))
      | (Raise e, d') => (ShowError e, mkApp d' (tree a))
      end
  end.

(** The table shows the bookings of the database. *)
Definition up_to_date (a : app) : Prop :=
  tree a = map row_of (listed None (database a)).

End Gui.

(* ------------------------------------------------------------------ *)
(** ** Lists *)

Section ListFacts.
Context {A : Type}.

Lemma StronglySorted_snoc (R : A -> A -> Prop) l x :
  StronglySorted R l -> Forall (fun y => R y x) l ->
  StronglySorted R (l ++ [x]).
Proof.
  induction 1 as [|a l Hl IH Ha]; intros Hx; simpl.
  - repeat constructor.
  - inversion Hx; subst. constructor; [auto|].
    apply Forall_app; split; [assumption | repeat constructor; assumption].
Qed.

Lemma ForallOrdPairs_snoc (R : A -> A -> Prop) l x :
  ForallOrdPairs R l -> Forall (fun y => R y x) l ->
  ForallOrdPairs R (l ++ [x]).
Proof.
  induction 1 as [|a l Ha Hl IH]; intros Hx; simpl.
  - repeat constructor.
  - inversion Hx; subst. constructor; [|auto].
    apply Forall_app; split; [assumption | repeat constructor; assumption].
Qed.

Lemma ForallOrdPairs_map (R : A -> A -> Prop) (f : A -> A) l :
  (forall a b, R a b -> R (f a) (f b)) ->
  ForallOrdPairs R l -> ForallOrdPairs R (map f l).
Proof.
  intros Hf; induction 1 as [|a l Ha Hl IH]; simpl; constructor; auto.
  rewrite Forall_map. eapply Forall_impl; [|exact Ha]. auto.
Qed.

Lemma StronglySorted_map (R : A -> A -> Prop) (f : A -> A) l :
  (forall a b, R a b -> R (f a) (f b)) ->
  StronglySorted R l -> StronglySorted R (map f l).
Proof.
  intros Hf; induction 1 as [|a l Hl IH Ha]; simpl; constructor; auto.
  rewrite Forall_map. eapply Forall_impl; [|exact Ha]. auto.
Qed.

Lemma StronglySorted_filter (R : A -> A -> Prop) (p : A -> bool) l :
  StronglySorted R l -> StronglySorted R (filter p l).
Proof.
  induction 1 as [|a l Hl IH Ha]; simpl; [constructor|].
  destruct (p a); [constructor|]; auto.
  rewrite Forall_forall in *. intros x Hx.
  apply filter_In in Hx. apply Ha, Hx.
Qed.

Lemma max_bound (f : A -> Z) l :
  Forall (fun y => f y < Sql.next_rowid (map f l)) l.
Proof.
  unfold Sql.next_rowid.
  induction l as [|a l IH]; cbn [map fold_right]; constructor.
  - lia.
  - eapply Forall_impl; [|exact IH]. cbn beta. intros y Hy. lia.
Qed.

Lemma next_rowid_pos (ids : list Z) : 0 < Sql.next_rowid ids.
Proof.
  unfold Sql.next_rowid.
  induction ids as [|a ids IH]; cbn [fold_right]; lia.
Qed.

End ListFacts.

(* ------------------------------------------------------------------ *)
(** ** Unfolding the engine's functions *)

Lemma text_overlap_sym ci1 co1 ci2 co2 :
  text_overlap ci1 co1 ci2 co2 = text_overlap ci2 co2 ci1 co1.
Proof.
  unfold text_overlap, Sql.text_le, Sql.text_ge. f_equal. apply orb_comm.
Qed.

Lemma blocks_eq ci co b :
  Sql.blocks ci co b =
  active b && text_overlap (b_check_in b) (b_check_out b) ci co.
Proof. reflexivity. Qed.

Lemma not_in_spec x l : Sql.not_in x l = true <-> ~ In x l.
Proof.
  unfold Sql.not_in. rewrite negb_true_iff. split.
  - intros H Hin. assert (existsb (Z.eqb x) l = true) as E.
    { apply existsb_exists. exists x. split; [assumption | apply Z.eqb_refl]. }
    congruence.
  - intros H. destruct (existsb (Z.eqb x) l) eqn:E; [|reflexivity].
    apply existsb_exists in E. destruct E as [y [Hy E]].
    apply Z.eqb_eq in E. subst. contradiction.
Qed.

(** Membership in the result of the availability query. *)
Lemma select_available_In d t ci co r :
  In r (Sql.select_available d t ci co) <->
  In r (rooms d) /\ r_room_type r = t /\
  forall b, In b (bookings d) -> b_room_id b = r_id r -> active b = true ->
            text_overlap (b_check_in b) (b_check_out b) ci co = false.
Proof.
  unfold Sql.select_available, Sql.blocked_rooms.
  rewrite filter_In, andb_true_iff, String.eqb_eq, not_in_spec.
  split.
  - intros [Hr [Ht Hn]]. repeat split; try assumption.
    intros b Hb Hid Ha.
    destruct (text_overlap _ _ ci co) eqn:E; [|reflexivity].
    exfalso. apply Hn. apply in_map_iff. exists b. split; [assumption|].
    apply filter_In. split; [assumption|]. rewrite blocks_eq, Ha, E. reflexivity.
  - intros [Hr [Ht Hn]]. repeat split; try assumption.
    intros Hin. apply in_map_iff in Hin. destruct Hin as [b [Hid Hb]].
    apply filter_In in Hb. destruct Hb as [Hb Hbl].
    rewrite blocks_eq in Hbl. apply andb_true_iff in Hbl.
    destruct Hbl as [Ha Ho]. rewrite (Hn b Hb Hid Ha) in Ho. discriminate.
Qed.

Lemma date_leb_ltb a b : Date.leb b a = negb (Date.ltb a b).
Proof.
  unfold Date.leb, Date.ltb, Date.compare.
  rewrite (Z.compare_antisym (Date.year a) (Date.year b)).
  rewrite (Z.compare_antisym (Date.month a) (Date.month b)).
  rewrite (Z.compare_antisym (Date.day a) (Date.day b)).
  destruct (Date.year a ?= Date.year b); simpl; try reflexivity.
  destruct (Date.month a ?= Date.month b); simpl; try reflexivity.
  destruct (Date.day a ?= Date.day b); reflexivity.
Qed.

(** The four ways a call of [create_booking] ends. *)
Lemma create_booking_cases g t ci co now d :
  create_booking g t ci co now d =
  match parse_date ci with
  | None => (Raise InvalidDate, d)
  | Some dci =>
      match parse_date co with
      | None => (Raise InvalidDate, d)
      | Some dco =>
          if Date.ltb dci dco then
            match Sql.select_available d t ci co with
            | [] => (Raise NoAvailability, d)
            | room :: _ =>
                (Ok (Sql.next_rowid (map b_id (bookings d)), room),
                 mkDb (rooms d)
                      (bookings d ++ [new_booking d room g ci co now]))
            end
          else (Raise InvalidRange, d)
      end
  end.
Proof.
  unfold create_booking, bind, of_option, ret, raise, available_rooms, query,
    execute.
  destruct (parse_date ci) as [dci|]; [|reflexivity].
  destruct (parse_date co) as [dco|]; [|reflexivity].
  rewrite date_leb_ltb.
  destruct (Date.ltb dci dco); simpl; [|reflexivity].
  destruct (Sql.select_available d t ci co); reflexivity.
Qed.

(** The three ways a call of [cancel_booking] ends. *)
Lemma cancel_booking_cases i now d :
  cancel_booking i now d =
  match find (fun b => b_id b =? i) (bookings d) with
  | None => (Raise NotFound, d)
  | Some b =>
      if (b_status b =? "cancelled")%string
      then (Raise AlreadyCancelled, d)
      else (Ok true, Sql.update_status d "cancelled" now i)
  end.
Proof.
  unfold cancel_booking, bind, query, execute, ret, raise, Sql.select_status.
  destruct (find _ (bookings d)) as [b|]; simpl; [|reflexivity].
  destruct (b_status b =? "cancelled")%string; reflexivity.
Qed.

(** What a call does to the database: nothing, or one new row. *)
Lemma create_booking_effect g t ci co now d :
  snd (create_booking g t ci co now d) = d \/
  exists room,
    In room (Sql.select_available d t ci co) /\ valid_request ci co /\
    snd (create_booking g t ci co now d) =
      mkDb (rooms d) (bookings d ++ [new_booking d room g ci co now]).
Proof.
  rewrite create_booking_cases.
  destruct (parse_date ci) as [dci|] eqn:Hci; [|left; reflexivity].
  destruct (parse_date co) as [dco|] eqn:Hco; [|left; reflexivity].
  destruct (Date.ltb dci dco) eqn:Hlt; [|left; reflexivity].
  destruct (Sql.select_available d t ci co) as [|room rest];
    [left; reflexivity|].
  right. exists room. split; [left; reflexivity|].
  split; [exists dci, dco; auto | reflexivity].
Qed.

(** What a call does to the database: nothing, or one UPDATE. *)
Lemma cancel_booking_effect i now d :
  snd (cancel_booking i now d) = d \/
  snd (cancel_booking i now d) = Sql.update_status d "cancelled" now i.
Proof.
  rewrite cancel_booking_cases.
  destruct (find _ (bookings d)) as [b|]; [|left; reflexivity].
  destruct (b_status b =? "cancelled")%string; [left | right]; reflexivity.
Qed.

(* ------------------------------------------------------------------ *)
(** ** The invariant is established and maintained *)

Lemma set_row_id st now i b : b_id (Sql.set_row st now i b) = b_id b.
Proof. unfold Sql.set_row. destruct (b_id b =? i); reflexivity. Qed.

Lemma set_row_room st now i b : b_room_id (Sql.set_row st now i b) = b_room_id b.
Proof. unfold Sql.set_row. destruct (b_id b =? i); reflexivity. Qed.

Lemma set_row_check_in st now i b :
  b_check_in (Sql.set_row st now i b) = b_check_in b.
Proof. unfold Sql.set_row. destruct (b_id b =? i); reflexivity. Qed.

Lemma set_row_check_out st now i b :
  b_check_out (Sql.set_row st now i b) = b_check_out b.
Proof. unfold Sql.set_row. destruct (b_id b =? i); reflexivity. Qed.

Lemma set_row_active now i b :
  active (Sql.set_row "cancelled" now i b) = true -> active b = true.
Proof.
  unfold Sql.set_row. destruct (b_id b =? i); [discriminate | trivial].
Qed.

Lemma set_row_status_ok now i b :
  status_ok b -> status_ok (Sql.set_row "cancelled" now i b).
Proof.
  unfold Sql.set_row. destruct (b_id b =? i); [|trivial].
  intros _. right. simpl. split; [reflexivity | discriminate].
Qed.

Lemma Inv_fresh d : fresh d -> Inv d.
Proof.
  intros [Hb Hr]. constructor; rewrite ?Hb; auto; constructor.
Qed.

Lemma Inv_insert d t room g ci co now dci dco :
  Inv d ->
  parse_date ci = Some dci -> parse_date co = Some dco ->
  Date.ltb dci dco = true ->
  In room (Sql.select_available d t ci co) ->
  Inv (mkDb (rooms d) (bookings d ++ [new_booking d room g ci co now])).
Proof.
  intros [Hr Hi Hp Hs Hf Hv Ht] Hci Hco Hlt Hav.
  apply select_available_In in Hav. destruct Hav as [Hin [_ Hfree]].
  constructor; simpl.
  - assumption.
  - apply StronglySorted_snoc; [assumption|].
    apply (max_bound b_id).
  - apply Forall_app. split; [assumption|].
    constructor; [|constructor]. apply next_rowid_pos.
  - apply Forall_app. split; [assumption|].
    constructor; [|constructor]. left. split; reflexivity.
  - apply Forall_app. split; [assumption|].
    constructor; [|constructor]. simpl. apply in_map. assumption.
  - apply Forall_app. split; [assumption|].
    constructor; [|constructor]. exists dci, dco. simpl. auto.
  - apply ForallOrdPairs_snoc; [assumption|].
    apply Forall_forall. intros b Hb [Ha [_ Hroom]]. simpl in *.
    apply Hfree; assumption.
Qed.

Lemma Inv_update d now i :
  Inv d -> Inv (Sql.update_status d "cancelled" now i).
Proof.
  intros [Hr Hi Hp Hs Hf Hv Ht]. constructor; simpl.
  - assumption.
  - apply StronglySorted_map; [|assumption].
    unfold booking_lt. intros a b. rewrite !set_row_id. trivial.
  - rewrite Forall_map. eapply Forall_impl; [|exact Hp].
    intros b. simpl. rewrite set_row_id. trivial.
  - rewrite Forall_map. eapply Forall_impl; [|exact Hs].
    intros b. apply set_row_status_ok.
  - rewrite Forall_map. eapply Forall_impl; [|exact Hf].
    intros b. simpl. rewrite set_row_room. trivial.
  - rewrite Forall_map. eapply Forall_impl; [|exact Hv].
    intros b. unfold range_valid.
    rewrite set_row_check_in, set_row_check_out. trivial.
  - apply ForallOrdPairs_map; [|assumption].
    unfold text_disjoint, same_room_active. intros a b H [Ha [Hb Hroom]].
    rewrite !set_row_check_in, !set_row_check_out.
    rewrite !set_row_room in Hroom.
    apply H. repeat split; eauto using set_row_active.
Qed.

Lemma Inv_create g t ci co now d :
  Inv d -> Inv (snd (create_booking g t ci co now d)).
Proof.
  intros H.
  destruct (create_booking_effect g t ci co now d)
    as [E|[room [Hav [[dci [dco [Hci [Hco Hlt]]]] E]]]]; rewrite E.
  - assumption.
  - eapply Inv_insert; eauto.
Qed.

Lemma Inv_cancel i now d :
  Inv d -> Inv (snd (cancel_booking i now d)).
Proof.
  intros H. destruct (cancel_booking_effect i now d) as [E|E]; rewrite E.
  - assumption.
  - apply Inv_update. assumption.
Qed.

Lemma Inv_exec o d : Inv d -> Inv (exec o d).
Proof.
  destruct o; simpl; [apply Inv_create | apply Inv_cancel].
Qed.

Lemma reachable_Inv d : reachable d -> Inv d.
Proof.
  induction 1; [apply Inv_fresh | apply Inv_exec]; assumption.
Qed.

Lemma reachable_run ops d : reachable d -> reachable (run ops d).
Proof.
  unfold run. revert d.
  induction ops as [|o ops IH]; intros d H; simpl; [assumption|].
  apply IH. apply reach_exec. assumption.
Qed.

Lemma fresh_seeded : fresh seeded.
Proof.
  split; [reflexivity|].
  unfold seeded, init_db, room_lt; simpl.
  repeat (constructor; simpl; try lia).
Qed.

Lemma reachable_seeded ops : reachable (run ops seeded).
Proof. apply reachable_run, reach_fresh, fresh_seeded. Qed.

(* ------------------------------------------------------------------ *)
(** ** Zero-padded dates compare as dates *)

Module IsoFacts.
Import Iso.

Lemma digit_char_compare i j :
  0 <= i <= 9 -> 0 <= j <= 9 ->
  Ascii.compare (digit_char i) (digit_char j) = (i ?= j).
Proof.
  intros Hi Hj. unfold Ascii.compare, digit_char.
  rewrite !N_ascii_embedding by lia.
  rewrite Z2N.inj_compare by lia.
  apply Z.add_compare_mono_l.
Qed.

Lemma two_digits_compare n m k1 k2 :
  0 <= n < 100 -> 0 <= m < 100 ->
  String.compare (two_digits n k1) (two_digits m k2) =
  match n ?= m with Eq => String.compare k1 k2 | c => c end.
Proof.
  intros Hn Hm. unfold two_digits. cbn [String.compare].
  rewrite !digit_char_compare
    by (split; [apply Z.mod_pos_bound; lia
               | pose proof (Z.mod_pos_bound n 10);
                 pose proof (Z.mod_pos_bound m 10);
                 pose proof (Z.mod_pos_bound (n / 10) 10);
                 pose proof (Z.mod_pos_bound (m / 10) 10); lia]).
  destruct (Z.compare_spec (n / 10 mod 10) (m / 10 mod 10));
    destruct (Z.compare_spec (n mod 10) (m mod 10));
    destruct (Z.compare_spec n m);
    try reflexivity; exfalso; Z.div_mod_to_equations; lia.
Qed.

Lemma four_digits_compare n m k1 k2 :
  0 <= n < 10000 -> 0 <= m < 10000 ->
  String.compare (four_digits n k1) (four_digits m k2) =
  match n ?= m with Eq => String.compare k1 k2 | c => c end.
Proof.
  intros Hn Hm. unfold four_digits, two_digits. cbn [String.compare].
  rewrite !digit_char_compare
    by (split; [apply Z.mod_pos_bound; lia
               | pose proof (Z.mod_pos_bound n 10);
                 pose proof (Z.mod_pos_bound m 10);
                 pose proof (Z.mod_pos_bound (n / 10) 10);
                 pose proof (Z.mod_pos_bound (m / 10) 10);
                 pose proof (Z.mod_pos_bound (n / 100) 10);
                 pose proof (Z.mod_pos_bound (m / 100) 10);
                 pose proof (Z.mod_pos_bound (n / 1000) 10);
                 pose proof (Z.mod_pos_bound (m / 1000) 10); lia]).
  destruct (Z.compare_spec (n / 1000 mod 10) (m / 1000 mod 10));
    destruct (Z.compare_spec (n / 100 mod 10) (m / 100 mod 10));
    destruct (Z.compare_spec (n / 10 mod 10) (m / 10 mod 10));
    destruct (Z.compare_spec (n mod 10) (m mod 10));
    destruct (Z.compare_spec n m);
    try reflexivity; exfalso; Z.div_mod_to_equations; lia.
Qed.

End IsoFacts.

(** [strptime] reads back what [isoformat] writes. *)
Module StrptimeFacts.

Lemma code_digit_char k :
  0 <= k <= 9 -> Strptime.code (Iso.digit_char k) = 48 + k.
Proof.
  intros H. unfold Strptime.code, Iso.digit_char.
  rewrite N_ascii_embedding by lia. apply Z2N.id. lia.
Qed.

Lemma digit_digit_char k :
  0 <= k <= 9 -> Strptime.digit (Iso.digit_char k) = k.
Proof.
  intros H. unfold Strptime.digit. rewrite code_digit_char by assumption. lia.
Qed.

Lemma any_digit_digit_char k rest :
  0 <= k <= 9 ->
  Strptime.any_digit (String (Iso.digit_char k) rest) = [(k, rest)].
Proof.
  intros H. unfold Strptime.any_digit, Unicode.decode.
  change (Unicode.byte (Iso.digit_char k))
    with (Strptime.code (Iso.digit_char k)).
  rewrite code_digit_char by assumption.
  replace (48 + k <? 128) with true by (symmetry; apply Z.ltb_lt; lia).
  unfold Unicode.decimal, Unicode.decimal_zeros. cbn [find].
  replace ((48 <=? 48 + k) && (48 + k <=? 48 + 9)) with true.
  - cbn [option_map]. do 3 f_equal. lia.
  - symmetry. apply andb_true_iff. split; apply Z.leb_le; lia.
Qed.

Lemma re_Y_four_digits y k :
  0 <= y <= 9999 -> Strptime.re_Y (Iso.four_digits y k) = [(y, k)].
Proof.
  intros H. unfold Iso.four_digits, Iso.two_digits, Strptime.re_Y.
  assert (forall n, 0 <= n mod 10 <= 9) as B
    by (intros n; pose proof (Z.mod_pos_bound n 10); lia).
  rewrite any_digit_digit_char by apply B. cbn [flat_map].
  rewrite any_digit_digit_char by apply B. cbn [flat_map].
  rewrite any_digit_digit_char by apply B. cbn [flat_map].
  rewrite any_digit_digit_char by apply B. cbn [map app].
  f_equal. f_equal.
  Z.div_mod_to_equations. lia.
Qed.

Lemma after_year_iso y m dd :
  1 <= m <= 12 -> 1 <= dd <= 31 ->
  exists tl,
    Strptime.after_year y
      (String "-" (Iso.two_digits m
        (String "-" (Iso.two_digits dd EmptyString))))
    = (y, m, dd, EmptyString) :: tl.
Proof.
  intros Hm Hd.
  assert (m = 1 \/ m = 2 \/ m = 3 \/ m = 4 \/ m = 5 \/ m = 6 \/ m = 7 \/
          m = 8 \/ m = 9 \/ m = 10 \/ m = 11 \/ m = 12) as Em by lia.
  assert (dd = 1 \/ dd = 2 \/ dd = 3 \/ dd = 4 \/ dd = 5 \/ dd = 6 \/
          dd = 7 \/ dd = 8 \/ dd = 9 \/ dd = 10 \/ dd = 11 \/ dd = 12 \/
          dd = 13 \/ dd = 14 \/ dd = 15 \/ dd = 16 \/ dd = 17 \/ dd = 18 \/
          dd = 19 \/ dd = 20 \/ dd = 21 \/ dd = 22 \/ dd = 23 \/ dd = 24 \/
          dd = 25 \/ dd = 26 \/ dd = 27 \/ dd = 28 \/ dd = 29 \/ dd = 30 \/
          dd = 31) as Ed by lia.
  clear Hm Hd.
  repeat (destruct Em as [Em|Em]); subst m;
    repeat (destruct Ed as [Ed|Ed]); subst dd;
    eexists; vm_compute; reflexivity.
Qed.

End StrptimeFacts.

Lemma days_in_month_le y m : Date.days_in_month y m <= 31.
Proof.
  unfold Date.days_in_month.
  destruct (m =? 2); [destruct (Date.is_leap y); lia|].
  destruct ((m =? 4) || (m =? 6) || (m =? 9) || (m =? 11)); lia.
Qed.

Lemma parse_date_valid s d :
  parse_date s = Some d ->
  1 <= Date.year d <= 9999 /\ 1 <= Date.month d <= 12 /\
  1 <= Date.day d <= 31.
Proof.
  unfold parse_date, Strptime.strptime.
  destruct (Strptime.matches s) as [|[[[y m] dd] rest] l]; [discriminate|].
  destruct rest; [|discriminate].
  destruct (Date.valid y m dd) eqn:V; [|discriminate].
  intros E. inversion E; subst; clear E. simpl.
  unfold Date.valid in V. rewrite !andb_true_iff, !Z.leb_le in V.
  pose proof (days_in_month_le y m). lia.
Qed.

Lemma dash_compare k1 k2 :
  String.compare (String "-" k1) (String "-" k2) = String.compare k1 k2.
Proof. reflexivity. Qed.

Lemma isoformat_compare a b :
  in_calendar a -> in_calendar b ->
  String.compare (Iso.isoformat a) (Iso.isoformat b) = Date.compare a b.
Proof.
  unfold in_calendar. intros Ha Hb. unfold Iso.isoformat, Date.compare.
  rewrite IsoFacts.four_digits_compare by lia.
  destruct (Date.year a ?= Date.year b); try reflexivity.
  rewrite dash_compare, IsoFacts.two_digits_compare by lia.
  destruct (Date.month a ?= Date.month b); try reflexivity.
  rewrite dash_compare, IsoFacts.two_digits_compare by lia.
  destruct (Date.day a ?= Date.day b); reflexivity.
Qed.

Lemma parse_date_isoformat y m dd :
  Date.valid y m dd = true ->
  parse_date (Iso.isoformat (Date.mkDate y m dd)) = Some (Date.mkDate y m dd).
Proof.
  intros V. pose proof V as V'.
  unfold Date.valid in V'. rewrite !andb_true_iff, !Z.leb_le in V'.
  pose proof (days_in_month_le y m).
  unfold parse_date, Strptime.strptime, Strptime.matches, Iso.isoformat.
  cbn [Date.year Date.month Date.day].
  rewrite StrptimeFacts.re_Y_four_digits by lia.
  cbn [flat_map]. rewrite app_nil_r.
  destruct (StrptimeFacts.after_year_iso y m dd) as [tl E]; [lia | lia |].
  rewrite E, V. reflexivity.
Qed.

(** Every calendar date has a zero-padded form, the one [isoformat]
    writes. *)
Lemma zero_padded_isoformat y m dd :
  Date.valid y m dd = true ->
  zero_padded (Iso.isoformat (Date.mkDate y m dd)) = true.
Proof.
  intros V. unfold zero_padded. rewrite (parse_date_isoformat y m dd V).
  apply String.eqb_refl.
Qed.

Lemma zero_padded_spec s :
  zero_padded s = true <->
  exists d, parse_date s = Some d /\ s = Iso.isoformat d.
Proof.
  unfold zero_padded. split.
  - destruct (parse_date s) as [d|]; [|discriminate].
    intros E. apply String.eqb_eq in E. eauto.
  - intros [d [Hp E]]. rewrite Hp. apply String.eqb_eq. assumption.
Qed.

(** On zero-padded strings the TEXT comparison is the comparison of the
    dates. *)
Lemma text_le_zero_padded s1 s2 d1 d2 :
  zero_padded s1 = true -> zero_padded s2 = true ->
  parse_date s1 = Some d1 -> parse_date s2 = Some d2 ->
  Sql.text_le s1 s2 = Date.leb d1 d2.
Proof.
  intros Z1 Z2 P1 P2.
  apply zero_padded_spec in Z1. destruct Z1 as [e1 [Q1 E1]].
  apply zero_padded_spec in Z2. destruct Z2 as [e2 [Q2 E2]].
  assert (e1 = d1) by congruence. assert (e2 = d2) by congruence. subst e1 e2.
  unfold Sql.text_le, String.leb, Date.leb.
  rewrite E1, E2 at 1.
  rewrite isoformat_compare by (unfold in_calendar; eauto using parse_date_valid).
  reflexivity.
Qed.

Lemma text_overlap_zero_padded ci1 co1 ci2 co2 :
  zero_padded ci1 = true -> zero_padded co1 = true ->
  zero_padded ci2 = true -> zero_padded co2 = true ->
  text_overlap ci1 co1 ci2 co2 = date_overlap ci1 co1 ci2 co2.
Proof.
  intros Z1 Z2 Z3 Z4. unfold text_overlap, date_overlap.
  change (Sql.text_ge ci1 co2) with (Sql.text_le co2 ci1).
  destruct (proj1 (zero_padded_spec _) Z1) as [a1 [P1 _]].
  destruct (proj1 (zero_padded_spec _) Z2) as [a2 [P2 _]].
  destruct (proj1 (zero_padded_spec _) Z3) as [b1 [P3 _]].
  destruct (proj1 (zero_padded_spec _) Z4) as [b2 [P4 _]].
  rewrite (text_le_zero_padded co1 ci2 a2 b1) by assumption.
  rewrite (text_le_zero_padded co2 ci1 b2 a1) by assumption.
  rewrite P1, P2, P3, P4. unfold Date.intersect.
  rewrite !date_leb_ltb, negb_orb, !negb_involutive. apply andb_comm.
Qed.

(* ------------------------------------------------------------------ *)
(** ** Admission: [create_booking] *)

Lemma next_rowid_fresh (l : list booking) :
  ~ In (Sql.next_rowid (map b_id l)) (map b_id l).
Proof.
  intros H. apply in_map_iff in H. destruct H as [b [E Hb]].
  pose proof (max_bound b_id l) as F. rewrite Forall_forall in F.
  specialize (F b Hb). lia.
Qed.

(** The checks of [create_booking] in their order: InvalidDate when
    either date string does not parse; otherwise InvalidRange when the
    parsed check-out is not strictly after the parsed check-in; otherwise
    NoAvailability when the availability query returns no room; otherwise
    one new active booking with a fresh identifier, on the first room of
    the query, and that identifier and room are returned. *)
Theorem create_booking_checks_in_order g t check_in check_out now d :
  match parse_date check_in, parse_date check_out with
  | Some ci, Some co =>
      if Date.ltb ci co then
        match fst (available_rooms t check_in check_out d) with
        | Ok (room :: _) =>
            exists booking_id b,
              create_booking g t check_in check_out now d =
                (Ok (booking_id, room),
                 mkDb (rooms d) (bookings d ++ [b])) /\
              ~ In booking_id (map b_id (bookings d)) /\
              b = mkBooking booking_id (r_id room) g check_in check_out
                            "active" now None
        | _ =>
            create_booking g t check_in check_out now d =
              (Raise NoAvailability, d)
        end
      else
        create_booking g t check_in check_out now d = (Raise InvalidRange, d)
  | _, _ =>
      create_booking g t check_in check_out now d = (Raise InvalidDate, d)
  end.
Proof.
  rewrite create_booking_cases. unfold available_rooms, query. simpl.
  destruct (parse_date check_in) as [ci|]; [|reflexivity].
  destruct (parse_date check_out) as [co|]; [|reflexivity].
  destruct (Date.ltb ci co); [|reflexivity].
  destruct (Sql.select_available d t check_in check_out) as [|room rest];
    [reflexivity|].
  exists (Sql.next_rowid (map b_id (bookings d))),
         (new_booking d room g check_in check_out now).
  split; [reflexivity|]. split; [apply next_rowid_fresh | reflexivity].
Qed.

(** C5: the checks come in the order claimed, but the third goes by the
    text of the dates.  With the Deluxe room booked from 2024-01-10 to
    2024-01-20, a request for 2024-1-12 to 2024-1-14 passes the date
    checks, no Deluxe room is free for those nights, and the call inserts
    a booking instead of raising NoAvailability; with the room booked from
    2024-1-12 to 2024-1-14, a request for 2024-1-1 to 2024-1-2 finds the
    room free on the calendar and the call raises NoAvailability. *)
Theorem create_booking_unpadded_outcomes :
  let room := mkRoom 5 "Deluxe" "L301" (4500 # 1) in
  let d1 := run [CreateBooking "Ann" "Deluxe" "2024-01-10" "2024-01-20" "t1"]
                seeded in
  let d2 := run [CreateBooking "Bob" "Deluxe" "2024-1-12" "2024-1-14" "t1"]
                seeded in
  (reachable d1 /\ valid_request "2024-1-12" "2024-1-14" /\
   free_rooms d1 "Deluxe" "2024-1-12" "2024-1-14" = [] /\
   fst (create_booking "Bob" "Deluxe" "2024-1-12" "2024-1-14" "t2" d1)
     = Ok (2, room)) /\
  (reachable d2 /\ valid_request "2024-1-1" "2024-1-2" /\
   free_rooms d2 "Deluxe" "2024-1-1" "2024-1-2" = [room] /\
   create_booking "Cid" "Deluxe" "2024-1-1" "2024-1-2" "t2" d2
     = (Raise NoAvailability, d2)).
Proof.
  intros room d1 d2. split; (split; [apply reachable_seeded|]); split.
  - exists (Date.mkDate 2024 1 12), (Date.mkDate 2024 1 14). repeat split.
  - split; reflexivity.
  - exists (Date.mkDate 2024 1 1), (Date.mkDate 2024 1 2). repeat split.
  - split; reflexivity.
Qed.

(** C7: a call of [create_booking] that raises (InvalidDate, InvalidRange
    or NoAvailability) leaves the database exactly as it was. *)
Theorem create_booking_failure_keeps_ledger g t check_in check_out now d e :
  fst (create_booking g t check_in check_out now d) = Raise e ->
  snd (create_booking g t check_in check_out now d) = d /\
  (e = InvalidDate \/ e = InvalidRange \/ e = NoAvailability).
Proof.
  rewrite create_booking_cases.
  destruct (parse_date check_in) as [ci|];
    [|simpl; intros E; inversion E; auto].
  destruct (parse_date check_out) as [co|];
    [|simpl; intros E; inversion E; auto].
  destruct (Date.ltb ci co); [|simpl; intros E; inversion E; auto].
  destruct (Sql.select_available d t check_in check_out);
    simpl; intros E; inversion E; auto.
Qed.

Lemma create_booking_failure_keeps_ledger_witness :
  snd (create_booking "Ann" "Single" "2024-02-01" "2024-01-30" "t" seeded)
    = seeded /\
  (InvalidRange = InvalidDate \/ InvalidRange = InvalidRange \/
   InvalidRange = NoAvailability).
Proof.
  apply (create_booking_failure_keeps_ledger
           "Ann" "Single" "2024-02-01" "2024-01-30" "t" seeded InvalidRange).
  reflexivity.
Defined.

(* ------------------------------------------------------------------ *)
(** ** Cancellation: [cancel_booking] *)

Lemma find_snoc {A} (f : A -> bool) l x :
  find f (l ++ [x]) =
  match find f l with Some y => Some y | None => find f [x] end.
Proof.
  induction l as [|a l IH]; [reflexivity|].
  cbn [app find]. destruct (f a); [reflexivity | exact IH].
Qed.

Lemma lookup_update d st now i j :
  lookup (Sql.update_status d st now i) j =
  option_map (Sql.set_row st now i) (lookup d j).
Proof.
  unfold lookup, Sql.update_status. simpl.
  induction (bookings d) as [|b l IH]; [reflexivity|].
  cbn [map find]. rewrite set_row_id.
  destruct (b_id b =? j); [reflexivity | exact IH].
Qed.

Lemma lookup_id d j b : lookup d j = Some b -> b_id b = j.
Proof.
  unfold lookup. intros H. apply find_some in H.
  apply Z.eqb_eq. apply H.
Qed.

Lemma select_status_lookup d i :
  Sql.select_status d i = option_map b_status (lookup d i).
Proof. reflexivity. Qed.

Lemma cancel_booking_again i now d :
  Sql.select_status d i = Some "cancelled" ->
  cancel_booking i now d = (Raise AlreadyCancelled, d).
Proof.
  rewrite cancel_booking_cases, select_status_lookup. fold (lookup d i).
  destruct (lookup d i) as [b|]; [|discriminate].
  simpl. intros E. inversion E as [E']. rewrite E'. reflexivity.
Qed.

Lemma cancelled_exec o d i :
  Sql.select_status d i = Some "cancelled" ->
  Sql.select_status (exec o d) i = Some "cancelled".
Proof.
  intros H. destruct o as [g t ci co now | j now]; simpl.
  - destruct (create_booking_effect g t ci co now d) as [E|[room [_ [_ E]]]];
      rewrite E; [assumption|].
    unfold Sql.select_status in *. simpl. rewrite find_snoc.
    destruct (find _ (bookings d)); [assumption | discriminate].
  - destruct (cancel_booking_effect j now d) as [E|E]; rewrite E;
      [assumption|].
    rewrite select_status_lookup, lookup_update.
    rewrite select_status_lookup in H.
    destruct (lookup d i) as [c|]; [|discriminate].
    simpl in *. unfold Sql.set_row.
    destruct (b_id c =? j); [reflexivity | assumption].
Qed.

Lemma cancelled_run ops d i :
  Sql.select_status d i = Some "cancelled" ->
  Sql.select_status (run ops d) i = Some "cancelled".
Proof.
  unfold run. revert d.
  induction ops as [|o ops IH]; intros d H; simpl; [assumption|].
  apply IH, cancelled_exec, H.
Qed.

Lemma lookup_In d i b : lookup d i = Some b -> In b (bookings d).
Proof. unfold lookup. intros H. apply find_some in H. apply H. Qed.

Lemma status_active_or_cancelled d b :
  Inv d -> In b (bookings d) ->
  b_status b = "active" \/ b_status b = "cancelled".
Proof.
  intros H Hb. pose proof (inv_status d H) as F.
  rewrite Forall_forall in F. destruct (F b Hb) as [[E _]|[E _]]; auto.
Qed.

Lemma cancel_booking_bound i now d :
  fits_int64 i = true ->
  Driver.cancel_booking i now d = cancel_booking i now d.
Proof. intros F. unfold Driver.cancel_booking. rewrite F. reflexivity. Qed.

(** C6, as the code has it: for an identifier that fits SQLite's 64-bit
    INTEGER, [cancel_booking] raises NotFound when no booking has it and
    AlreadyCancelled when the booking is cancelled; otherwise the booking
    is active and the call turns it, and no other row, into a cancelled
    booking stamped with the clock reading.  A second call raises
    AlreadyCancelled, and so does every later call, whatever operations
    come in between: a cancelled booking stays cancelled.  For an
    identifier that does not fit, the call raises OverflowError and the
    database is as before. *)
Theorem cancel_booking_transitions i now d :
  reachable d ->
  if fits_int64 i then
    match lookup d i with
    | None => Driver.cancel_booking i now d = (Raise NotFound, d)
    | Some b =>
        if (b_status b =? "cancelled")%string
        then Driver.cancel_booking i now d = (Raise AlreadyCancelled, d)
        else
          b_status b = "active" /\
          exists d',
            Driver.cancel_booking i now d = (Ok true, d') /\
            rooms d' = rooms d /\
            map b_id (bookings d') = map b_id (bookings d) /\
            lookup d' i = Some (cancelled_at now b) /\
            (forall j, j <> i -> lookup d' j = lookup d j) /\
            (forall now',
               Driver.cancel_booking i now' d' = (Raise AlreadyCancelled, d'))
    end /\
    (forall ops now',
       Sql.select_status d i = Some "cancelled" ->
       Sql.select_status (run ops d) i = Some "cancelled" /\
       Driver.cancel_booking i now' (run ops d)
         = (Raise AlreadyCancelled, run ops d))
  else Driver.cancel_booking i now d = (Raise OverflowError, d).
Proof.
  intros R. destruct (fits_int64 i) eqn:F;
    [|unfold Driver.cancel_booking; rewrite F; reflexivity].
  split.
  - rewrite (cancel_booking_bound i now d F).
    rewrite cancel_booking_cases. fold (lookup d i).
    destruct (lookup d i) as [b|] eqn:L; [|reflexivity].
    destruct (b_status b =? "cancelled")%string eqn:S; [reflexivity|].
    split.
    { destruct (status_active_or_cancelled d b (reachable_Inv d R)
                  (lookup_In d i b L)) as [E|E]; [assumption|].
      rewrite E in S. discriminate. }
    exists (Sql.update_status d "cancelled" now i).
    assert (lookup (Sql.update_status d "cancelled" now i) i
            = Some (cancelled_at now b)) as L'.
    { rewrite lookup_update, L. simpl. unfold Sql.set_row.
      replace (b_id b =? i) with true; [reflexivity|].
      symmetry. apply Z.eqb_eq, (lookup_id d i b L). }
    repeat split.
    + simpl. rewrite map_map. apply map_ext. intros a. apply set_row_id.
    + exact L'.
    + intros j Hj. rewrite lookup_update.
      destruct (lookup d j) as [c|] eqn:Lj; [|reflexivity].
      simpl. unfold Sql.set_row. rewrite (lookup_id d j c Lj).
      destruct (j =? i) eqn:E; [apply Z.eqb_eq in E; contradiction|].
      reflexivity.
    + intros now'. rewrite (cancel_booking_bound i now' _ F).
      apply cancel_booking_again.
      rewrite select_status_lookup, L'. reflexivity.
  - intros ops now' H. split; [apply cancelled_run; assumption|].
    rewrite (cancel_booking_bound i now' _ F).
    apply cancel_booking_again, cancelled_run, H.
Qed.

Lemma cancel_booking_transitions_witness :
  let d := run [CreateBooking "Ann" "Single" "2024-01-10" "2024-01-12" "t1"]
               seeded in
  reachable d /\
  (if fits_int64 1 then
     match lookup d 1 with
     | None => Driver.cancel_booking 1 "t2" d = (Raise NotFound, d)
     | Some b =>
         if (b_status b =? "cancelled")%string
         then Driver.cancel_booking 1 "t2" d = (Raise AlreadyCancelled, d)
         else
           b_status b = "active" /\
           exists d',
             Driver.cancel_booking 1 "t2" d = (Ok true, d') /\
             rooms d' = rooms d /\
             map b_id (bookings d') = map b_id (bookings d) /\
             lookup d' 1 = Some (cancelled_at "t2" b) /\
             (forall j, j <> 1 -> lookup d' j = lookup d j) /\
             (forall now',
                Driver.cancel_booking 1 now' d'
                  = (Raise AlreadyCancelled, d'))
     end /\
     (forall ops now',
        Sql.select_status d 1 = Some "cancelled" ->
        Sql.select_status (run ops d) 1 = Some "cancelled" /\
        Driver.cancel_booking 1 now' (run ops d)
          = (Raise AlreadyCancelled, run ops d))
   else Driver.cancel_booking 1 "t2" d = (Raise OverflowError, d)).
Proof.
  intros d. split.
  - apply reachable_seeded.
  - apply (cancel_booking_transitions 1 "t2" d). apply reachable_seeded.
Defined.

(** C6, as the specification words it, fails: 2^63 is the identifier of
    no booking, and cancelling it raises OverflowError from the driver,
    not NotFound. *)
Lemma cancel_out_of_range_overflows : ~ absent_is_not_found.
Proof.
  intros C.
  specialize (C seeded (2 ^ 63) "t" (reach_fresh _ fresh_seeded) eq_refl).
  discriminate.
Qed.

(* ------------------------------------------------------------------ *)
(** ** The dates of a booking *)

Lemma stay_set_row st now i b : stay (Sql.set_row st now i b) = stay b.
Proof. unfold Sql.set_row. destruct (b_id b =? i); reflexivity. Qed.

Lemma stay_exec o d :
  exists added,
    map stay (bookings (exec o d)) = map stay (bookings d) ++ added.
Proof.
  destruct o as [g t ci co now | j now]; simpl.
  - destruct (create_booking_effect g t ci co now d) as [E|[room [_ [_ E]]]];
      rewrite E.
    + exists []. symmetry. apply app_nil_r.
    + simpl. rewrite map_app. eexists. reflexivity.
  - destruct (cancel_booking_effect j now d) as [E|E]; rewrite E; exists [];
      rewrite app_nil_r; [reflexivity|].
    simpl. rewrite map_map. apply map_ext. intros a. apply stay_set_row.
Qed.

(** C8: in every state the engine reaches, each stored booking has a
    check-out date strictly after its check-in date, and an operation
    (a cancellation in particular) leaves the identifier and both dates of
    every stored booking as they were; it can only add rows, which again
    have check-out after check-in. *)
Theorem booking_dates_valid_and_fixed d o :
  reachable d ->
  Forall range_valid (bookings d) /\
  Forall range_valid (bookings (exec o d)) /\
  exists added,
    map stay (bookings (exec o d)) = map stay (bookings d) ++ added.
Proof.
  intros R. split; [|split].
  - apply inv_range, reachable_Inv, R.
  - apply inv_range, reachable_Inv, reach_exec, R.
  - apply stay_exec.
Qed.

Lemma booking_dates_valid_and_fixed_witness :
  let d := run [CreateBooking "Ann" "Single" "2024-01-10" "2024-01-12" "t1"]
               seeded in
  reachable d /\
  (Forall range_valid (bookings d) /\
   Forall range_valid (bookings (exec (CancelBooking 1 "t2") d)) /\
   exists added,
     map stay (bookings (exec (CancelBooking 1 "t2") d)) =
     map stay (bookings d) ++ added).
Proof.
  intros d. split.
  - apply reachable_seeded.
  - apply (booking_dates_valid_and_fixed d (CancelBooking 1 "t2")).
    apply reachable_seeded.
Defined.

(* ------------------------------------------------------------------ *)
(** ** The availability query: order and first fit *)

Lemma sorted_ids_inj {A} (f : A -> Z) (l : list A) a b :
  StronglySorted (fun x y => f x < f y) l ->
  In a l -> In b l -> f a = f b -> a = b.
Proof.
  induction 1 as [|x l Hl IH Hx]; intros Ha Hb E; [contradiction|].
  rewrite Forall_forall in Hx.
  destruct Ha as [Ha|Ha], Hb as [Hb|Hb]; subst; auto.
  - specialize (Hx b Hb). lia.
  - specialize (Hx a Ha). lia.
Qed.

Lemma select_available_sorted d t ci co :
  Inv d -> StronglySorted room_lt (Sql.select_available d t ci co).
Proof.
  intros H. apply StronglySorted_filter, inv_rooms, H.
Qed.

Lemma head_is_least d t ci co room rest :
  Inv d -> Sql.select_available d t ci co = room :: rest ->
  forall r, In r (room :: rest) -> r_id room <= r_id r.
Proof.
  intros H E r Hr. pose proof (select_available_sorted d t ci co H) as S.
  rewrite E in S. apply StronglySorted_inv in S. destruct S as [_ F].
  rewrite Forall_forall in F. destruct Hr as [Hr|Hr].
  - subst. lia.
  - specialize (F r Hr). unfold room_lt in F. lia.
Qed.



(** On the seeded catalog with S101 booked, the query for overlapping
    nights returns S102, and the admission takes it; with both free it
    returns S101 then S102 and the admission takes S101. *)
Example first_fit_on_seeded :
  let d := run [CreateBooking "Ann" "Single" "2024-01-10" "2024-01-12" "t1"]
               seeded in
  available_rooms "Single" "2024-01-20" "2024-01-22" d
    = (Ok [mkRoom 1 "Single" "S101" (1500 # 1);
           mkRoom 2 "Single" "S102" (1500 # 1)], d) /\
  fst (create_booking "Bob" "Single" "2024-01-20" "2024-01-22" "t2" d)
    = Ok (2, mkRoom 1 "Single" "S101" (1500 # 1)) /\
  available_rooms "Single" "2024-01-11" "2024-01-21" d
    = (Ok [mkRoom 2 "Single" "S102" (1500 # 1)], d) /\
  fst (create_booking "Bob" "Single" "2024-01-11" "2024-01-21" "t2" d)
    = Ok (2, mkRoom 2 "Single" "S102" (1500 # 1)).
Proof. repeat split. Qed.

(* ------------------------------------------------------------------ *)
(** ** Cancelling releases the room *)

Lemma lookup_unique d b :
  Inv d -> In b (bookings d) -> lookup d (b_id b) = Some b.
Proof.
  intros H. pose proof (inv_ids d H) as S. unfold lookup.
  induction S as [|a l Hl IH Ha]; intros Hb; [contradiction|].
  cbn [find]. destruct (b_id a =? b_id b) eqn:E.
  - apply Z.eqb_eq in E. destruct Hb as [Hb|Hb]; [congruence|].
    rewrite Forall_forall in Ha. specialize (Ha b Hb).
    unfold booking_lt in Ha. lia.
  - destruct Hb as [Hb|Hb]; [subst; rewrite Z.eqb_refl in E; discriminate|].
    auto.
Qed.

(** In a reachable state two different active bookings of one room are
    disjoint as the availability query compares them. *)
Lemma active_text_disjoint d b c :
  Inv d -> In b (bookings d) -> In c (bookings d) -> b_id c <> b_id b ->
  same_room_active c b ->
  text_overlap (b_check_in c) (b_check_out c)
               (b_check_in b) (b_check_out b) = false.
Proof.
  intros H Hb Hc Hne Hs.
  destruct (ForallOrdPairs_In (inv_text d H) c b Hc Hb) as [E|[D|D]].
  - subst. contradiction.
  - apply D, Hs.
  - rewrite text_overlap_sym. apply D.
    destruct Hs as [A1 [A2 A3]]. repeat split; auto.
Qed.

Lemma released d b now r :
  Inv d -> In b (bookings d) -> active b = true ->
  In r (rooms d) -> r_id r = b_room_id b ->
  In r (Sql.select_available (Sql.update_status d "cancelled" now (b_id b))
          (r_room_type r) (b_check_in b) (b_check_out b)).
Proof.
  intros H Hb Ha Hr Hid. apply select_available_In.
  split; [exact Hr|]. split; [reflexivity|].
  intros c' Hc' Hroom Hact. simpl in Hc'.
  apply in_map_iff in Hc'. destruct Hc' as [c [E Hc]]. subst c'.
  rewrite set_row_check_in, set_row_check_out.
  rewrite set_row_room in Hroom.
  assert (b_id c <> b_id b) as Hne.
  { intros Q. unfold Sql.set_row, active in Hact.
    apply Z.eqb_eq in Q. rewrite Q in Hact. discriminate. }
  apply (active_text_disjoint d b c H Hb Hc Hne).
  repeat split; [eapply set_row_active; eauto | assumption | congruence].
Qed.

(** C10: when an active booking [b] of a reachable state is cancelled, its
    room [r] is in the result of [available_rooms] for [r]'s type over
    [b]'s interval, and a following [create_booking] for that type and
    interval is accepted: on the available room with the lowest identifier,
    which is [r] whenever no available room has a lower one.  (Other active
    bookings of [r] never block [b]'s interval, since they were accepted
    next to [b].) *)
Theorem cancel_releases_room d b now :
  reachable d -> In b (bookings d) -> active b = true ->
  exists d' r rs,
    cancel_booking (b_id b) now d = (Ok true, d') /\
    In r (rooms d') /\ r_id r = b_room_id b /\
    available_rooms (r_room_type r) (b_check_in b) (b_check_out b) d'
      = (Ok rs, d') /\
    In r rs /\
    forall g now',
      exists booking_id room d'',
        create_booking g (r_room_type r) (b_check_in b) (b_check_out b)
                       now' d' = (Ok (booking_id, room), d'') /\
        In room rs /\ r_id room <= r_id r /\
        ((forall r', In r' rs -> r_id r <= r_id r') -> room = r).
Proof.
  intros R Hb Ha. pose proof (reachable_Inv d R) as H.
  pose proof (inv_ref d H) as F. rewrite Forall_forall in F.
  specialize (F b Hb). apply in_map_iff in F. destruct F as [r [Hid Hr]].
  set (d' := Sql.update_status d "cancelled" now (b_id b)).
  assert (Inv d') as H' by (apply Inv_update, H).
  exists d', r, (Sql.select_available d' (r_room_type r)
                   (b_check_in b) (b_check_out b)).
  pose proof (released d b now r H Hb Ha Hr Hid) as Hfree. fold d' in Hfree.
  split.
  { rewrite cancel_booking_cases. fold (lookup d (b_id b)).
    rewrite (lookup_unique d b H Hb).
    unfold active in Ha. apply String.eqb_eq in Ha. rewrite Ha. reflexivity. }
  split; [exact Hr|]. split; [exact Hid|]. split; [reflexivity|].
  split; [exact Hfree|].
  intros g now'. rewrite create_booking_cases.
  pose proof (inv_range d H) as V. rewrite Forall_forall in V.
  destruct (V b Hb) as [ci [co [Pci [Pco Hlt]]]].
  rewrite Pci, Pco, Hlt.
  destruct (Sql.select_available d' (r_room_type r)
              (b_check_in b) (b_check_out b)) as [|room rest] eqn:E;
    [contradiction|].
  do 3 eexists. split; [reflexivity|].
  pose proof (head_is_least d' _ _ _ room rest H' E) as Least.
  split; [left; reflexivity|]. split; [apply Least, Hfree|].
  intros Hleast.
  assert (In room (room :: rest)) as Hroom by (left; reflexivity).
  pose proof (Hleast room Hroom). pose proof (Least r Hfree).
  apply (sorted_ids_inj r_id (room :: rest)); auto; [|lia].
  rewrite <- E. apply select_available_sorted, H'.
Qed.

Lemma cancel_releases_room_witness :
  let d := run [CreateBooking "Ann" "Deluxe" "2024-01-10" "2024-01-12" "t1"]
               seeded in
  let b := mkBooking 1 5 "Ann" "2024-01-10" "2024-01-12" "active" "t1" None in
  (reachable d /\ In b (bookings d) /\ active b = true) /\
  exists d' r rs,
    cancel_booking (b_id b) "t2" d = (Ok true, d') /\
    In r (rooms d') /\ r_id r = b_room_id b /\
    available_rooms (r_room_type r) (b_check_in b) (b_check_out b) d'
      = (Ok rs, d') /\
    In r rs /\
    forall g now',
      exists booking_id room d'',
        create_booking g (r_room_type r) (b_check_in b) (b_check_out b)
                       now' d' = (Ok (booking_id, room), d'') /\
        In room rs /\ r_id room <= r_id r /\
        ((forall r', In r' rs -> r_id r <= r_id r') -> room = r).
Proof.
  intros d b.
  assert (reachable d /\ In b (bookings d) /\ active b = true) as W.
  { split; [apply reachable_seeded|].
    split; [left; reflexivity | reflexivity]. }
  split; [exact W|].
  destruct W as [W1 [W2 W3]].
  exact (cancel_releases_room d b "t2" W1 W2 W3).
Defined.

(* ------------------------------------------------------------------ *)
(** ** Overlap: stored text against calendar dates *)

Lemma ledger_zero_padded_exec o d :
  op_zero_padded o -> ledger_zero_padded d -> ledger_zero_padded (exec o d).
Proof.
  unfold ledger_zero_padded.
  destruct o as [g t ci co now | j now]; simpl; intros Z L.
  - destruct (create_booking_effect g t ci co now d) as [E|[room [_ [_ E]]]];
      rewrite E; [assumption|]. simpl.
    apply Forall_app. split; [assumption|].
    constructor; [exact Z | constructor].
  - destruct (cancel_booking_effect j now d) as [E|E]; rewrite E;
      [assumption|]. simpl.
    rewrite Forall_map. eapply Forall_impl; [|exact L].
    intros a. simpl. rewrite set_row_check_in, set_row_check_out. trivial.
Qed.

Lemma ledger_zero_padded_run ops d :
  Forall op_zero_padded ops -> ledger_zero_padded d ->
  ledger_zero_padded (run ops d).
Proof.
  unfold run. intros F. revert d.
  induction F as [|o ops Ho F IH]; intros d L; simpl; [assumption|].
  apply IH, ledger_zero_padded_exec; assumption.
Qed.

(** While every accepted request writes its dates as YYYY-MM-DD, active
    bookings of one room never overlap in time. *)
Lemma no_overlap_zero_padded d :
  reachable d -> ledger_zero_padded d -> no_overlap d.
Proof.
  intros R L b1 b2 H1 H2 Hne Hs.
  unfold ledger_zero_padded in L. rewrite Forall_forall in L.
  destruct (L b1 H1) as [Z1 Z2]. destruct (L b2 H2) as [Z3 Z4].
  rewrite <- text_overlap_zero_padded by assumption.
  apply (active_text_disjoint d b2 b1 (reachable_Inv d R)); assumption.
Qed.

Lemma no_overlap_zero_padded_run ops d :
  fresh d -> Forall op_zero_padded ops -> no_overlap (run ops d).
Proof.
  intros F Z. apply no_overlap_zero_padded.
  - apply reachable_run, reach_fresh, F.
  - apply ledger_zero_padded_run; [assumption|].
    destruct F as [E _]. unfold ledger_zero_padded. rewrite E. constructor.
Qed.

(** C1: the engine admits a second active booking on a room whose
    calendar interval lies inside that of the first, when the second
    request writes its month without the leading zero: [strptime] accepts
    the strings, and the availability query compares them as text. *)
Theorem double_booking_unpadded_dates :
  let d := run [CreateBooking "Ann" "Deluxe" "2024-01-10" "2024-01-20" "t1";
                CreateBooking "Bob" "Deluxe" "2024-1-12" "2024-1-14" "t2"]
               seeded in
  reachable d /\ ~ no_overlap d.
Proof.
  intros d. split; [apply reachable_seeded|].
  intros N.
  specialize (N (mkBooking 1 5 "Ann" "2024-01-10" "2024-01-20" "active" "t1" None)
                (mkBooking 2 5 "Bob" "2024-1-12" "2024-1-14" "active" "t2" None)).
  assert (true = false) as Absurd; [|discriminate].
  apply N.
  - left. reflexivity.
  - right. left. reflexivity.
  - simpl. lia.
  - repeat split.
Qed.

(* ------------------------------------------------------------------ *)
(** ** The availability query against the calendar *)

Lemma not_in_blocked x bs ci co :
  Sql.not_in x (Sql.blocked_rooms bs ci co) =
  forallb (fun b => negb (Sql.blocks ci co b && (b_room_id b =? x))) bs.
Proof.
  unfold Sql.not_in, Sql.blocked_rooms.
  induction bs as [|b bs IH]; [reflexivity|].
  cbn [filter forallb]. rewrite <- IH.
  destruct (Sql.blocks ci co b); cbn [map existsb andb negb].
  - rewrite (Z.eqb_sym x). destruct (b_room_id b =? x); reflexivity.
  - reflexivity.
Qed.

(** On a ledger and a request written YYYY-MM-DD the query returns the
    rooms of the type that are free on the calendar, in catalog order. *)
Lemma select_available_zero_padded d t ci co :
  ledger_zero_padded d -> zero_padded ci = true -> zero_padded co = true ->
  Sql.select_available d t ci co = free_rooms d t ci co.
Proof.
  intros L Zi Zo. unfold Sql.select_available, free_rooms.
  apply filter_ext. intros r. f_equal.
  rewrite not_in_blocked.
  unfold ledger_zero_padded in L.
  induction L as [|b bs [Z1 Z2] L IH]; [reflexivity|].
  cbn [forallb]. rewrite IH. f_equal. f_equal.
  rewrite blocks_eq, text_overlap_zero_padded by assumption.
  destruct (active b), (b_room_id b =? r_id r), (date_overlap _ _ ci co);
    reflexivity.
Qed.

Lemma string_compare_refl s : String.compare s s = Eq.
Proof.
  induction s as [|c s IH]; [reflexivity|].
  cbn [String.compare]. unfold Ascii.compare.
  rewrite N.compare_refl. exact IH.
Qed.

Lemma text_le_refl s : Sql.text_le s s = true.
Proof.
  unfold Sql.text_le, String.leb. rewrite string_compare_refl. reflexivity.
Qed.

(** A booking that ends where the request starts, or starts where the
    request ends, does not block its room. *)
Lemma boundary_touch_free check_in check_out b :
  b_check_out b = check_in \/ b_check_in b = check_out ->
  Sql.blocks check_in check_out b = false.
Proof.
  unfold Sql.blocks, Sql.text_ge.
  intros [E|E]; rewrite E.
  - rewrite text_le_refl. simpl. apply andb_false_r.
  - fold (Sql.text_le check_out check_out). rewrite text_le_refl.
    rewrite orb_true_r. apply andb_false_r.
Qed.

(** C2: with the Deluxe room booked from 2024-01-10 to 2024-01-20, the
    availability query for 2024-1-12 to 2024-1-14, a request the engine
    accepts, returns that room, although the booking's interval contains
    the requested one and no Deluxe room is free on the calendar. *)
Theorem available_rooms_unpadded_request :
  let d := run [CreateBooking "Ann" "Deluxe" "2024-01-10" "2024-01-20" "t1"]
               seeded in
  reachable d /\
  valid_request "2024-1-12" "2024-1-14" /\
  fst (available_rooms "Deluxe" "2024-1-12" "2024-1-14" d)
    = Ok [mkRoom 5 "Deluxe" "L301" (4500 # 1)] /\
  free_rooms d "Deluxe" "2024-1-12" "2024-1-14" = [].
Proof.
  intros d. split; [apply reachable_seeded|]. split.
  - exists (Date.mkDate 2024 1 12), (Date.mkDate 2024 1 14).
    repeat split.
  - split; reflexivity.
Qed.

(* ------------------------------------------------------------------ *)
(** ** Listing: [list_bookings] *)

Lemma insert_desc_perm x l : Permutation (Sql.insert_desc x l) (x :: l).
Proof.
  induction l as [|y l IH]; simpl; [apply Permutation_refl|].
  destruct (Sql.text_le _ _); [apply Permutation_refl|].
  eapply perm_trans; [apply perm_skip, IH | apply perm_swap].
Qed.

Lemma order_by_perm l : Permutation (Sql.order_by_created_at_desc l) l.
Proof.
  unfold Sql.order_by_created_at_desc.
  induction l as [|x l IH]; simpl; [constructor|].
  eapply perm_trans; [apply insert_desc_perm | apply perm_skip, IH].
Qed.

Lemma insert_desc_sorted x l :
  Sorted newest_first l -> Sorted newest_first (Sql.insert_desc x l).
Proof.
  induction 1 as [|y l Hl IH Hy]; simpl; [repeat constructor|].
  destruct (Sql.text_le (b_created_at (l_booking y))
                        (b_created_at (l_booking x))) eqn:E.
  - constructor; [constructor; assumption|]. constructor. exact E.
  - constructor; [exact IH|].
    assert (newest_first y x) as Hyx.
    { unfold newest_first, Sql.text_le in *.
      destruct (String.leb_total (b_created_at (l_booking y))
                                 (b_created_at (l_booking x))); congruence. }
    destruct l as [|z l]; cbn [Sql.insert_desc].
    + constructor. exact Hyx.
    + destruct (Sql.text_le (b_created_at (l_booking z))
                            (b_created_at (l_booking x)));
        constructor; [exact Hyx|].
      inversion Hy; assumption.
Qed.

Lemma string_leb_trans a b c :
  String.leb a b = true -> String.leb b c = true -> String.leb a c = true.
Proof.
  unfold String.leb. revert b c.
  induction a as [|x a IH]; intros [|y b] [|z c]; cbn [String.compare];
    try reflexivity; try discriminate.
  unfold Ascii.compare.
  destruct (N.compare_spec (N_of_ascii x) (N_of_ascii y));
    destruct (N.compare_spec (N_of_ascii y) (N_of_ascii z));
    destruct (N.compare_spec (N_of_ascii x) (N_of_ascii z));
    try reflexivity; try discriminate; try lia.
  apply IH.
Qed.

Lemma newest_first_trans x y z :
  newest_first x y -> newest_first y z -> newest_first x z.
Proof.
  unfold newest_first, Sql.text_le. intros Hxy Hyz.
  eapply string_leb_trans; eassumption.
Qed.

Lemma order_by_sorted l :
  StronglySorted newest_first (Sql.order_by_created_at_desc l).
Proof.
  apply Sorted_StronglySorted.
  - intros x y z. apply newest_first_trans.
  - unfold Sql.order_by_created_at_desc.
    induction l as [|x l IH]; simpl; [constructor|].
    apply insert_desc_sorted, IH.
Qed.

Lemma filter_none {A} (p : A -> bool) l :
  (forall a, In a l -> p a = false) -> filter p l = [].
Proof.
  induction l as [|a l IH]; intros H; [reflexivity|].
  simpl. rewrite (H a (or_introl eq_refl)). apply IH.
  intros b Hb. apply H. right. exact Hb.
Qed.

Lemma one_room rs x :
  StronglySorted room_lt rs -> In x (map r_id rs) ->
  exists r, filter (fun r => r_id r =? x) rs = [r].
Proof.
  induction 1 as [|a l Hl IH Ha]; intros Hx; [contradiction|].
  cbn [filter]. destruct (r_id a =? x) eqn:E.
  - exists a. f_equal. apply Z.eqb_eq in E.
    rewrite Forall_forall in Ha.
    apply filter_none. intros r Hr.
    specialize (Ha r Hr). unfold room_lt in Ha. apply Z.eqb_neq. lia.
  - destruct Hx as [Hx|Hx]; [simpl in Hx; apply Z.eqb_neq in E; lia|].
    apply IH, Hx.
Qed.

Lemma join_bookings d : Inv d -> map l_booking (Sql.join d) = bookings d.
Proof.
  intros H. unfold Sql.join.
  pose proof (inv_ref d H) as F.
  induction F as [|b bs Hb F IH]; [reflexivity|].
  cbn [flat_map]. rewrite map_app, IH.
  destruct (one_room (rooms d) (b_room_id b) (inv_rooms d H) Hb) as [r E].
  rewrite E. reflexivity.
Qed.

Lemma join_joined d : Forall (joined d) (Sql.join d).
Proof.
  apply Forall_forall. intros l Hl. unfold Sql.join in Hl.
  apply in_flat_map in Hl. destruct Hl as [b [_ Hl]].
  apply in_map_iff in Hl. destruct Hl as [r [E Hr]].
  apply filter_In in Hr. destruct Hr as [Hr Hid]. apply Z.eqb_eq in Hid.
  subst l. exists r. simpl. auto.
Qed.

Lemma map_filter_comm {A B} (f : A -> B) (p : B -> bool) l :
  map f (filter (fun x => p (f x)) l) = filter p (map f l).
Proof.
  induction l as [|a l IH]; [reflexivity|].
  simpl. destruct (p (f a)); simpl; rewrite IH; reflexivity.
Qed.

(** The rows [list_bookings] selects, before they are ordered. *)
Lemma list_bookings_selects status d :
  exists sel,
    list_bookings status d
      = (Ok (Sql.order_by_created_at_desc sel), d) /\
    sel = filter (fun l => wanted status (l_booking l)) (Sql.join d).
Proof.
  destruct status as [s|]; unfold list_bookings, wanted.
  - destruct (truthy (Some s)); eexists; (split; [reflexivity|]).
    + reflexivity.
    + symmetry. apply filter_true.
  - eexists. split; [reflexivity|]. symmetry. apply filter_true.
Qed.

(** C9: [list_bookings] leaves the database as it is and returns rows
    ordered by [created_at] descending (every row is at least as recent as
    all the rows after it), each carrying the type, number and price of its
    booking's room; with a status filter (a non-empty string) they are
    exactly the bookings of that status, and with no filter ([None], or the
    empty string, which is no status and which [if status:] takes for no
    filter) they are all the bookings. *)
Theorem list_bookings_rows status d :
  reachable d ->
  exists rows,
    list_bookings status d = (Ok rows, d) /\
    StronglySorted newest_first rows /\
    Forall (joined d) rows /\
    Permutation (map l_booking rows) (filter (wanted status) (bookings d)) /\
    (truthy status = false -> Permutation (map l_booking rows) (bookings d)) /\
    (forall s, status = Some s -> s <> "" ->
       forall b, In b (map l_booking rows) <->
                 In b (bookings d) /\ b_status b = s).
Proof.
  intros R. pose proof (reachable_Inv d R) as H.
  destruct (list_bookings_selects status d) as [sel [E Hsel]].
  exists (Sql.order_by_created_at_desc sel).
  assert (Permutation (map l_booking (Sql.order_by_created_at_desc sel))
                      (filter (wanted status) (bookings d))) as P.
  { eapply perm_trans; [apply Permutation_map, order_by_perm|].
    rewrite Hsel, (map_filter_comm l_booking (wanted status)).
    rewrite (join_bookings d H). apply Permutation_refl. }
  split; [exact E|]. split; [apply order_by_sorted|]. split; [|split; [exact P|split]].
  - apply Forall_forall. intros l Hl.
    apply (Permutation_in _ (order_by_perm sel)) in Hl.
    rewrite Hsel in Hl. apply filter_In in Hl.
    pose proof (join_joined d) as J. rewrite Forall_forall in J.
    apply J, Hl.
  - intros T. replace (bookings d) with (filter (wanted status) (bookings d));
      [exact P|].
    unfold wanted. destruct status as [s|]; [rewrite T|]; apply filter_true.
  - intros s Es Hs b. subst status.
    assert (truthy (Some s) = true) as T.
    { simpl. destruct (String.eqb_spec s ""); [contradiction | reflexivity]. }
    split.
    + intros Hb. apply (Permutation_in _ P) in Hb.
      apply filter_In in Hb. unfold wanted in Hb. rewrite T in Hb.
      destruct Hb as [Hb Q]. apply String.eqb_eq in Q. auto.
    + intros [Hb Q]. apply (Permutation_in _ (Permutation_sym P)).
      apply filter_In. split; [exact Hb|].
      unfold wanted. rewrite T. apply String.eqb_eq, Q.
Qed.

Lemma list_bookings_rows_witness :
  let d := run [CreateBooking "Ann" "Single" "2024-01-10" "2024-01-12" "t1";
                CreateBooking "Bob" "Single" "2024-01-10" "2024-01-12" "t2";
                CancelBooking 1 "t3"] seeded in
  reachable d /\
  exists rows,
    list_bookings (Some "active") d = (Ok rows, d) /\
    StronglySorted newest_first rows /\
    Forall (joined d) rows /\
    Permutation (map l_booking rows)
                (filter (wanted (Some "active")) (bookings d)) /\
    (truthy (Some "active") = false ->
       Permutation (map l_booking rows) (bookings d)) /\
    (forall s, Some "active" = Some s -> s <> "" ->
       forall b, In b (map l_booking rows) <->
                 In b (bookings d) /\ b_status b = s).
Proof.
  intros d. split.
  - apply reachable_seeded.
  - apply (list_bookings_rows (Some "active") d). apply reachable_seeded.
Defined.

(* ------------------------------------------------------------------ *)
(** ** Two admissions for the last room *)

Module ConcurrentFacts.
Import Concurrent.





(** The availability query after one more booking row. *)
Lemma select_available_snoc d nb t ci co :
  Sql.select_available (mkDb (rooms d) (bookings d ++ [nb])) t ci co =
  filter (fun r => negb (Sql.blocks ci co nb && (b_room_id nb =? r_id r)))
         (Sql.select_available d t ci co).
Proof.
  unfold Sql.select_available. cbn [rooms bookings].
  induction (rooms d) as [|r rs IH]; [reflexivity|].
  cbn [filter]. rewrite !not_in_blocked, forallb_app. cbn [forallb].
  rewrite andb_true_r.
  destruct ((r_room_type r =? t)%string);
    destruct (forallb _ (bookings d)); cbn [andb filter];
    try destruct (negb _); cbn [andb]; rewrite IH; reflexivity.
Qed.



End ConcurrentFacts.





(** The schedule of the counterexample, step by step: both calls select
    room L301 before either inserts, and both return a booking on it. *)
Example interleaved_outcome :
  let s := Concurrent.schedule
             [Concurrent.TurnA "t1"; Concurrent.TurnB "t1";
              Concurrent.TurnA "t2"; Concurrent.TurnB "t3"]
             (Concurrent.mkState seeded
                (Concurrent.Called "Ann" "Deluxe" "2024-01-10" "2024-01-12")
                (Concurrent.Called "Bob" "Deluxe" "2024-01-11" "2024-01-13")) in
  Concurrent.st_a s
    = Concurrent.Returned (Ok (1, mkRoom 5 "Deluxe" "L301" (4500 # 1))) /\
  Concurrent.st_b s
    = Concurrent.Returned (Ok (2, mkRoom 5 "Deluxe" "L301" (4500 # 1))) /\
  map (fun b => (b_id b, b_room_id b, b_check_in b, b_check_out b, b_status b))
      (bookings (Concurrent.st_db s))
    = [(1, 5, "2024-01-10", "2024-01-12", "active");
       (2, 5, "2024-01-11", "2024-01-13", "active")].
Proof. repeat split. Qed.

(* ------------------------------------------------------------------ *)
(** ** The scenarios of the specification, run on the model *)

(** Scenario 1: two bookings of the same nights take S101 then S102, a
    third finds no room. *)
Example scenario_two_singles :
  let d1 := seeded in
  let r1 := create_booking "A" "Single" "2024-01-10" "2024-01-12" "t1" d1 in
  let r2 := create_booking "B" "Single" "2024-01-10" "2024-01-12" "t2"
              (snd r1) in
  let r3 := create_booking "C" "Single" "2024-01-10" "2024-01-12" "t3"
              (snd r2) in
  fst r1 = Ok (1, mkRoom 1 "Single" "S101" (1500 # 1)) /\
  fst r2 = Ok (2, mkRoom 2 "Single" "S102" (1500 # 1)) /\
  fst r3 = Raise NoAvailability.
Proof. repeat split. Qed.

(** Scenario 2: a booking that starts on the day another ends takes the
    same room. *)
Example scenario_boundary_touch :
  let r1 := create_booking "A" "Single" "2024-01-10" "2024-01-15" "t1"
              seeded in
  let r2 := create_booking "B" "Single" "2024-01-15" "2024-01-18" "t2"
              (snd r1) in
  fst r1 = Ok (1, mkRoom 1 "Single" "S101" (1500 # 1)) /\
  fst r2 = Ok (2, mkRoom 1 "Single" "S101" (1500 # 1)).
Proof. repeat split. Qed.

(** Scenario 3: check-out before check-in. *)
Example scenario_invalid_range :
  create_booking "A" "Single" "2024-02-01" "2024-01-30" "t1" seeded
    = (Raise InvalidRange, seeded).
Proof. reflexivity. Qed.

(** Scenario 4: cancelling an unknown booking, a booking, and the same
    booking again. *)
Example scenario_cancel :
  let d := snd (create_booking "A" "Single" "2024-01-10" "2024-01-12" "t1"
                  seeded) in
  fst (cancel_booking 9999 "t2" d) = Raise NotFound /\
  fst (cancel_booking 1 "t2" d) = Ok true /\
  fst (cancel_booking 1 "t3" (snd (cancel_booking 1 "t2" d)))
    = Raise AlreadyCancelled.
Proof. repeat split. Qed.

(** Dates [strptime] takes and refuses. *)
Example parse_date_samples :
  parse_date "2024-01-10" = Some (Date.mkDate 2024 1 10) /\
  parse_date "2024-1-12" = Some (Date.mkDate 2024 1 12) /\
  parse_date "2024-02-29" = Some (Date.mkDate 2024 2 29) /\
  parse_date "2023-02-29" = None /\
  parse_date "2024-13-01" = None /\
  parse_date "2024-01-311" = None /\
  parse_date "24-01-01" = None /\
  parse_date "10/01/2024" = None /\
  zero_padded "2024-01-10" = true /\
  zero_padded "2024-1-12" = false.
Proof. repeat split. Qed.

(* ------------------------------------------------------------------ *)
(** ** Start-up: [init_db] *)

Lemma seed_not_empty rs :
  fold_left Sql.insert_room seed_rooms rs <> [].
Proof.
  unfold seed_rooms. cbn [fold_left]. unfold Sql.insert_room at 1.
  intros E. apply app_eq_nil in E. destruct E as [_ E]. discriminate.
Qed.

(** X1: [init_db] seeds the five rooms only into an empty catalog: on a
    catalog with rooms it changes nothing, so calling it again (as the
    graphical front-end does after importing the module) is harmless; it
    never touches the bookings. *)
Theorem init_db_idempotent d :
  init_db (init_db d) = init_db d /\
  bookings (init_db d) = bookings d /\
  (rooms d <> [] -> init_db d = d) /\
  (rooms d = [] -> rooms (init_db d) = rooms seeded).
Proof.
  assert (forall x, rooms x <> [] -> init_db x = x) as Keep.
  { intros x Hx. unfold init_db. destruct (rooms x); [contradiction|].
    reflexivity. }
  repeat split.
  - destruct (rooms d) as [|r rs] eqn:E.
    + apply Keep. unfold init_db. rewrite E. simpl Z.eqb. cbn iota.
      cbn [rooms]. apply seed_not_empty.
    + assert (init_db d = d) as K by (apply Keep; rewrite E; discriminate).
      rewrite K. exact K.
  - unfold init_db. destruct (Z.of_nat _ =? 0); reflexivity.
  - apply Keep.
  - intros E. unfold init_db. rewrite E. reflexivity.
Qed.

(** X2: [init_db] keeps the engine's invariant and maps reachable states to
    reachable states. *)
Theorem init_db_reachable d : reachable d -> reachable (init_db d).
Proof.
  intros R. destruct (rooms d) as [|r rs] eqn:E.
  - pose proof (inv_ref d (reachable_Inv d R)) as F. rewrite E in F.
    assert (bookings d = []) as B.
    { destruct (bookings d) as [|b bs]; [reflexivity|].
      inversion F as [|? ? Hb]; contradiction. }
    apply reach_fresh. unfold init_db, fresh. rewrite E, B. simpl.
    split; [reflexivity|].
    unfold room_lt; simpl. repeat (constructor; simpl; try lia).
  - unfold init_db. rewrite E. simpl. exact R.
Qed.

Lemma init_db_reachable_witness :
  reachable empty_db /\ reachable (init_db empty_db).
Proof.
  assert (reachable empty_db) as R.
  { apply reach_fresh. split; [reflexivity | constructor]. }
  split; [exact R | exact (init_db_reachable empty_db R)].
Defined.

(* ------------------------------------------------------------------ *)
(** ** Identifiers of bookings *)

Lemma max_seq a n :
  fold_right Z.max 0 (map Z.of_nat (seq a n)) =
  match n with O => 0 | S m => Z.of_nat (a + m) end.
Proof.
  revert a. induction n as [|n IH]; intros a; [reflexivity|].
  cbn [seq map fold_right]. rewrite IH.
  destruct n as [|m]; lia.
Qed.

Lemma next_rowid_ids_upto n :
  Sql.next_rowid (ids_upto n) = Z.of_nat (S n).
Proof.
  unfold Sql.next_rowid, ids_upto. rewrite max_seq.
  destruct n; lia.
Qed.

Lemma ids_upto_S n : ids_upto (S n) = ids_upto n ++ [Z.of_nat (S n)].
Proof.
  unfold ids_upto. rewrite seq_S, map_app. reflexivity.
Qed.

Lemma ids_exec o d :
  map b_id (bookings d) = ids_upto (List.length (bookings d)) ->
  map b_id (bookings (exec o d)) = ids_upto (List.length (bookings (exec o d))).
Proof.
  intros H. destruct o as [g t ci co now | j now]; simpl.
  - destruct (create_booking_effect g t ci co now d) as [E|[room [_ [_ E]]]];
      rewrite E; [assumption|]. cbn [bookings].
    rewrite map_app, length_app, Nat.add_1_r, ids_upto_S, H.
    cbn [map new_booking b_id List.length]. rewrite H, next_rowid_ids_upto.
    reflexivity.
  - destruct (cancel_booking_effect j now d) as [E|E]; rewrite E;
      [assumption|]. cbn [Sql.update_status bookings].
    rewrite map_map, length_map.
    rewrite <- H. apply map_ext. intros a. apply set_row_id.
Qed.

(** X3: Booking identifiers are handed out as 1, 2, 3, ... in the order of
    admission and never change: in a state reached from an empty ledger
    the identifiers of the rows are exactly 1 to the number of rows, and a
    successful [create_booking] returns that number plus one. *)
Theorem booking_ids_consecutive d :
  reachable d ->
  map b_id (bookings d) = ids_upto (List.length (bookings d)) /\
  forall g t ci co now booking_id room d',
    create_booking g t ci co now d = (Ok (booking_id, room), d') ->
    booking_id = Z.of_nat (S (List.length (bookings d))).
Proof.
  intros R.
  assert (map b_id (bookings d) = ids_upto (List.length (bookings d))) as H.
  { induction R as [d [B _]|d o R IH]; [rewrite B; reflexivity|].
    apply ids_exec, IH. }
  split; [exact H|].
  intros g t ci co now booking_id room d'. rewrite create_booking_cases.
  destruct (parse_date ci); [|discriminate].
  destruct (parse_date co); [|discriminate].
  destruct (Date.ltb _ _); [|discriminate].
  destruct (Sql.select_available d t ci co); [discriminate|].
  intros E. inversion E. rewrite H. apply next_rowid_ids_upto.
Qed.

Lemma booking_ids_consecutive_witness :
  let d := run [CreateBooking "Ann" "Single" "2024-01-10" "2024-01-12" "t1";
                CancelBooking 1 "t2";
                CreateBooking "Bob" "Single" "2024-01-10" "2024-01-12" "t3"]
               seeded in
  reachable d /\
  (map b_id (bookings d) = ids_upto (List.length (bookings d)) /\
   forall g t ci co now booking_id room d',
     create_booking g t ci co now d = (Ok (booking_id, room), d') ->
     booking_id = Z.of_nat (S (List.length (bookings d)))).
Proof.
  intros d. split.
  - apply reachable_seeded.
  - apply (booking_ids_consecutive d). apply reachable_seeded.
Defined.

(* ------------------------------------------------------------------ *)
(** ** Rows and the rooms they point to *)

(** X4: Every booking of a reachable state points to exactly one room of the
    catalog. *)
Theorem booking_room_exists d b :
  reachable d -> In b (bookings d) ->
  exists r,
    In r (rooms d) /\ r_id r = b_room_id b /\
    forall r', In r' (rooms d) -> r_id r' = b_room_id b -> r' = r.
Proof.
  intros R Hb. pose proof (reachable_Inv d R) as H.
  pose proof (inv_ref d H) as F. rewrite Forall_forall in F.
  specialize (F b Hb). apply in_map_iff in F. destruct F as [r [Hid Hr]].
  exists r. split; [exact Hr|]. split; [exact Hid|].
  intros r' Hr' Hid'.
  apply (sorted_ids_inj r_id (rooms d)); auto; [apply (inv_rooms d H) | lia].
Qed.

Lemma booking_room_exists_witness :
  let d := run [CreateBooking "Ann" "Double" "2024-03-01" "2024-03-04" "t1"]
               seeded in
  let b := mkBooking 1 3 "Ann" "2024-03-01" "2024-03-04" "active" "t1" None in
  (reachable d /\ In b (bookings d)) /\
  exists r,
    In r (rooms d) /\ r_id r = b_room_id b /\
    forall r', In r' (rooms d) -> r_id r' = b_room_id b -> r' = r.
Proof.
  intros d b.
  assert (reachable d /\ In b (bookings d)) as W.
  { split; [apply reachable_seeded | left; reflexivity]. }
  split; [exact W|]. destruct W as [W1 W2].
  exact (booking_room_exists d b W1 W2).
Defined.

Lemma lookup_fresh d : lookup d (Sql.next_rowid (map b_id (bookings d))) = None.
Proof.
  unfold lookup.
  destruct (find _ (bookings d)) as [b|] eqn:E; [|reflexivity].
  apply find_some in E. destruct E as [Hb E]. apply Z.eqb_eq in E.
  exfalso. apply (next_rowid_fresh (bookings d)).
  rewrite <- E. apply in_map, Hb.
Qed.

(** X5: A successful [create_booking] returns a catalog room of the requested
    type, leaves the catalog as it is, and the identifier it returns finds
    the new row: active, in that room, with the guest and the dates as
    given and no cancellation time. *)
Theorem create_booking_then_lookup g t ci co now d booking_id room d' :
  create_booking g t ci co now d = (Ok (booking_id, room), d') ->
  In room (rooms d) /\ r_room_type room = t /\ rooms d' = rooms d /\
  lookup d booking_id = None /\
  lookup d' booking_id =
    Some (mkBooking booking_id (r_id room) g ci co "active" now None) /\
  forall j, j <> booking_id -> lookup d' j = lookup d j.
Proof.
  rewrite create_booking_cases.
  destruct (parse_date ci); [|discriminate].
  destruct (parse_date co); [|discriminate].
  destruct (Date.ltb _ _); [|discriminate].
  destruct (Sql.select_available d t ci co) as [|r0 rest] eqn:Hav;
    [discriminate|].
  intros E. inversion E; subst; clear E.
  assert (In room (Sql.select_available d t ci co)) as Hin
    by (rewrite Hav; left; reflexivity).
  apply select_available_In in Hin. destruct Hin as [Hr [Ht _]].
  split; [exact Hr|]. split; [exact Ht|]. split; [reflexivity|].
  split; [apply lookup_fresh|].
  unfold lookup. cbn [bookings]. split.
  - rewrite find_snoc. fold (lookup d (Sql.next_rowid (map b_id (bookings d)))).
    rewrite lookup_fresh. cbn [find new_booking b_id].
    rewrite Z.eqb_refl. reflexivity.
  - intros j Hj. rewrite find_snoc.
    destruct (find _ (bookings d)); [reflexivity|].
    cbn [find new_booking b_id].
    destruct (Sql.next_rowid (map b_id (bookings d)) =? j) eqn:Q;
      [apply Z.eqb_eq in Q; congruence | reflexivity].
Qed.

Lemma create_booking_then_lookup_witness :
  let room := mkRoom 1 "Single" "S101" (1500 # 1) in
  let d' := snd (create_booking "Ann" "Single" "2024-01-10" "2024-01-12" "t1"
                   seeded) in
  create_booking "Ann" "Single" "2024-01-10" "2024-01-12" "t1" seeded
    = (Ok (1, room), d') /\
  (In room (rooms seeded) /\ r_room_type room = "Single" /\
   rooms d' = rooms seeded /\
   lookup seeded 1 = None /\
   lookup d' 1 =
     Some (mkBooking 1 (r_id room) "Ann" "2024-01-10" "2024-01-12"
                     "active" "t1" None) /\
   forall j, j <> 1 -> lookup d' j = lookup seeded j).
Proof.
  intros room d'.
  assert (create_booking "Ann" "Single" "2024-01-10" "2024-01-12" "t1" seeded
          = (Ok (1, room), d')) as W by reflexivity.
  split; [exact W|].
  exact (create_booking_then_lookup "Ann" "Single" "2024-01-10" "2024-01-12"
           "t1" seeded 1 room d' W).
Defined.

(** X6: In every reachable state a booking is active with no cancellation
    time, or cancelled with one. *)
Theorem status_and_cancellation_time d b :
  reachable d -> In b (bookings d) ->
  (b_status b = "active" /\ b_cancelled_at b = None) \/
  (b_status b = "cancelled" /\ exists t, b_cancelled_at b = Some t).
Proof.
  intros R Hb. pose proof (inv_status d (reachable_Inv d R)) as F.
  rewrite Forall_forall in F. destruct (F b Hb) as [[S C]|[S C]].
  - left. auto.
  - right. split; [exact S|].
    destruct (b_cancelled_at b) as [t|]; [eauto | contradiction].
Qed.

Lemma status_and_cancellation_time_witness :
  let d := run [CreateBooking "Ann" "Single" "2024-01-10" "2024-01-12" "t1";
                CancelBooking 1 "t2"] seeded in
  let b := mkBooking 1 1 "Ann" "2024-01-10" "2024-01-12" "cancelled" "t1"
                     (Some "t2") in
  (reachable d /\ In b (bookings d)) /\
  ((b_status b = "active" /\ b_cancelled_at b = None) \/
   (b_status b = "cancelled" /\ exists t, b_cancelled_at b = Some t)).
Proof.
  intros d b.
  assert (reachable d /\ In b (bookings d)) as W.
  { split; [apply reachable_seeded | left; reflexivity]. }
  split; [exact W|]. destruct W as [W1 W2].
  exact (status_and_cancellation_time d b W1 W2).
Defined.

(* ------------------------------------------------------------------ *)
(** ** How admissions and cancellations change availability *)

(** X7: An admission can only take rooms away from the result of an
    availability query, a cancellation can only add rooms to it, whatever
    the query and whether or not the call succeeds. *)
Theorem availability_monotone d r t ci co :
  (forall g t0 ci0 co0 now,
     In r (Sql.select_available
             (snd (create_booking g t0 ci0 co0 now d)) t ci co) ->
     In r (Sql.select_available d t ci co)) /\
  (forall i now,
     In r (Sql.select_available d t ci co) ->
     In r (Sql.select_available (snd (cancel_booking i now d)) t ci co)).
Proof.
  split.
  - intros g t0 ci0 co0 now.
    destruct (create_booking_effect g t0 ci0 co0 now d)
      as [E|[room [_ [_ E]]]]; rewrite E; [trivial|].
    rewrite !select_available_In. cbn [rooms bookings].
    intros [Hr [Ht Hfree]]. repeat split; try assumption.
    intros b Hb. apply Hfree. apply in_or_app. left. exact Hb.
  - intros i now.
    destruct (cancel_booking_effect i now d) as [E|E]; rewrite E; [trivial|].
    rewrite !select_available_In. cbn [Sql.update_status rooms bookings].
    intros [Hr [Ht Hfree]]. repeat split; try assumption.
    intros b' Hb' Hroom Hact.
    apply in_map_iff in Hb'. destruct Hb' as [b [Eb Hb]]. subst b'.
    rewrite set_row_check_in, set_row_check_out.
    rewrite set_row_room in Hroom.
    apply Hfree; [assumption | assumption | eapply set_row_active; eauto].
Qed.

Lemma set_row_other st now i b : b_id b <> i -> Sql.set_row st now i b = b.
Proof.
  intros H. unfold Sql.set_row.
  destruct (b_id b =? i) eqn:E; [apply Z.eqb_eq in E; contradiction|].
  reflexivity.
Qed.

Lemma set_row_below st now i l :
  Forall (fun b => b_id b < i) l -> map (Sql.set_row st now i) l = l.
Proof.
  induction 1 as [|b bs Hb F IH]; [reflexivity|].
  cbn [map]. rewrite IH, set_row_other by lia. reflexivity.
Qed.

Lemma update_status_fresh d st now :
  map (Sql.set_row st now (Sql.next_rowid (map b_id (bookings d))))
      (bookings d) = bookings d.
Proof. apply set_row_below, (max_bound b_id). Qed.

(** X8: Cancelling a booking right after it was made gives every
    availability query the answer it had before the booking: the ledger
    keeps the row, cancelled, and the room is free again. *)
Theorem create_then_cancel_restores g t ci co n1 n2 d booking_id room d1 :
  create_booking g t ci co n1 d = (Ok (booking_id, room), d1) ->
  exists d2,
    cancel_booking booking_id n2 d1 = (Ok true, d2) /\
    bookings d2 =
      bookings d ++ [mkBooking booking_id (r_id room) g ci co "cancelled" n1
                               (Some n2)] /\
    forall t' ci' co',
      Sql.select_available d2 t' ci' co' = Sql.select_available d t' ci' co'.
Proof.
  rewrite create_booking_cases.
  destruct (parse_date ci); [|discriminate].
  destruct (parse_date co); [|discriminate].
  destruct (Date.ltb _ _); [|discriminate].
  destruct (Sql.select_available d t ci co) as [|r0 rest]; [discriminate|].
  intros E. inversion E; subst; clear E.
  set (i := Sql.next_rowid (map b_id (bookings d))).
  set (d1 := mkDb (rooms d) (bookings d ++ [new_booking d room g ci co n1])).
  assert (lookup d1 i = Some (new_booking d room g ci co n1)) as L.
  { unfold lookup, d1. cbn [bookings]. rewrite find_snoc.
    fold (lookup d i). unfold i. rewrite lookup_fresh.
    cbn [find new_booking b_id]. rewrite Z.eqb_refl. reflexivity. }
  assert (bookings (Sql.update_status d1 "cancelled" n2 i) =
          bookings d ++ [mkBooking i (r_id room) g ci co "cancelled" n1
                                   (Some n2)]) as B.
  { unfold d1. cbn [Sql.update_status bookings]. rewrite map_app.
    unfold i at 1. rewrite update_status_fresh.
    cbn [map]. unfold Sql.set_row. cbn [new_booking b_id].
    fold i. rewrite Z.eqb_refl. reflexivity. }
  exists (Sql.update_status d1 "cancelled" n2 i).
  split; [|split; [exact B|]].
  - rewrite cancel_booking_cases. fold (lookup d1 i). rewrite L. reflexivity.
  - intros t' ci' co'.
    replace (Sql.update_status d1 "cancelled" n2 i)
      with (mkDb (rooms d)
              (bookings d ++ [mkBooking i (r_id room) g ci co "cancelled" n1
                                        (Some n2)])).
    + rewrite ConcurrentFacts.select_available_snoc.
      apply forallb_filter_id, forallb_forall. intros r _. reflexivity.
    + unfold Sql.update_status in *. cbn [bookings] in B. rewrite B.
      reflexivity.
Qed.

Lemma create_then_cancel_restores_witness :
  let room := mkRoom 5 "Deluxe" "L301" (4500 # 1) in
  let d1 := snd (create_booking "Ann" "Deluxe" "2024-05-01" "2024-05-03" "t1"
                   seeded) in
  create_booking "Ann" "Deluxe" "2024-05-01" "2024-05-03" "t1" seeded
    = (Ok (1, room), d1) /\
  exists d2,
    cancel_booking 1 "t2" d1 = (Ok true, d2) /\
    bookings d2 =
      bookings seeded ++
      [mkBooking 1 (r_id room) "Ann" "2024-05-01" "2024-05-03" "cancelled"
                 "t1" (Some "t2")] /\
    forall t' ci' co',
      Sql.select_available d2 t' ci' co'
      = Sql.select_available seeded t' ci' co'.
Proof.
  intros room d1.
  assert (create_booking "Ann" "Deluxe" "2024-05-01" "2024-05-03" "t1" seeded
          = (Ok (1, room), d1)) as W by reflexivity.
  split; [exact W|].
  exact (create_then_cancel_restores "Ann" "Deluxe" "2024-05-01" "2024-05-03"
           "t1" "t2" seeded 1 room d1 W).
Defined.

(** X9: A booking that ends where a request starts, or starts where it ends,
    takes no room away from that request: after any admission the
    availability query for an interval beginning at the new booking's
    check-out, or ending at its check-in, answers as before. *)
Theorem back_to_back_keeps_availability g t ci co now d booking_id room d' :
  create_booking g t ci co now d = (Ok (booking_id, room), d') ->
  forall t' x,
    Sql.select_available d' t' co x = Sql.select_available d t' co x /\
    Sql.select_available d' t' x ci = Sql.select_available d t' x ci.
Proof.
  rewrite create_booking_cases.
  destruct (parse_date ci); [|discriminate].
  destruct (parse_date co); [|discriminate].
  destruct (Date.ltb _ _); [|discriminate].
  destruct (Sql.select_available d t ci co) as [|r0 rest]; [discriminate|].
  intros E. inversion E; subst; clear E. intros t' x.
  rewrite !ConcurrentFacts.select_available_snoc.
  split; apply forallb_filter_id, forallb_forall; intros r _;
    rewrite boundary_touch_free; auto.
Qed.

Lemma back_to_back_keeps_availability_witness :
  let room := mkRoom 1 "Single" "S101" (1500 # 1) in
  let d' := snd (create_booking "Ann" "Single" "2024-01-10" "2024-01-15" "t1"
                   seeded) in
  create_booking "Ann" "Single" "2024-01-10" "2024-01-15" "t1" seeded
    = (Ok (1, room), d') /\
  forall t' x,
    Sql.select_available d' t' "2024-01-15" x
      = Sql.select_available seeded t' "2024-01-15" x /\
    Sql.select_available d' t' x "2024-01-10"
      = Sql.select_available seeded t' x "2024-01-10".
Proof.
  intros room d'.
  assert (create_booking "Ann" "Single" "2024-01-10" "2024-01-15" "t1" seeded
          = (Ok (1, room), d')) as W by reflexivity.
  split; [exact W|].
  exact (back_to_back_keeps_availability "Ann" "Single" "2024-01-10"
           "2024-01-15" "t1" seeded 1 room d' W).
Defined.

(** X10: Two admissions in a row whose zero-padded intervals intersect never
    get the same room. *)
Theorem overlapping_admissions_differ
    g1 t1 ci1 co1 n1 g2 t2 ci2 co2 n2 d id1 r1 d1 id2 r2 d2 :
  zero_padded ci1 = true -> zero_padded co1 = true ->
  zero_padded ci2 = true -> zero_padded co2 = true ->
  date_overlap ci1 co1 ci2 co2 = true ->
  create_booking g1 t1 ci1 co1 n1 d = (Ok (id1, r1), d1) ->
  create_booking g2 t2 ci2 co2 n2 d1 = (Ok (id2, r2), d2) ->
  r_id r1 <> r_id r2.
Proof.
  intros Z1 Z2 Z3 Z4 O C1 C2 Same.
  rewrite create_booking_cases in C1.
  destruct (parse_date ci1); [|discriminate].
  destruct (parse_date co1); [|discriminate].
  destruct (Date.ltb _ _); [|discriminate].
  destruct (Sql.select_available d t1 ci1 co1) as [|r0 rest]; [discriminate|].
  inversion C1; subst; clear C1.
  rewrite create_booking_cases in C2.
  destruct (parse_date ci2); [|discriminate].
  destruct (parse_date co2); [|discriminate].
  destruct (Date.ltb _ _); [|discriminate].
  match type of C2 with
  | context [Sql.select_available ?x t2 ci2 co2] =>
      destruct (Sql.select_available x t2 ci2 co2) as [|r0' rest'] eqn:Hav;
        [discriminate|]
  end.
  inversion C2; subst; clear C2.
  assert (In r2 (r2 :: rest')) as Hin by (left; reflexivity).
  rewrite <- Hav in Hin. apply select_available_In in Hin.
  destruct Hin as [_ [_ Hfree]].
  specialize (Hfree (new_booking d r1 g1 ci1 co1 n1)).
  cbn [bookings new_booking b_room_id b_check_in b_check_out] in Hfree.
  rewrite text_overlap_zero_padded, O in Hfree by assumption.
  assert (true = false) as Absurd; [|discriminate].
  apply Hfree; [apply in_or_app; right; left; reflexivity | exact Same
               | reflexivity].
Qed.

Lemma overlapping_admissions_differ_witness :
  let r1 := mkRoom 1 "Single" "S101" (1500 # 1) in
  let r2 := mkRoom 2 "Single" "S102" (1500 # 1) in
  let d1 := snd (create_booking "Ann" "Single" "2024-01-10" "2024-01-15" "t1"
                   seeded) in
  let d2 := snd (create_booking "Bob" "Single" "2024-01-12" "2024-01-13" "t2"
                   d1) in
  (zero_padded "2024-01-10" = true /\ zero_padded "2024-01-15" = true /\
   zero_padded "2024-01-12" = true /\ zero_padded "2024-01-13" = true /\
   date_overlap "2024-01-10" "2024-01-15" "2024-01-12" "2024-01-13" = true /\
   create_booking "Ann" "Single" "2024-01-10" "2024-01-15" "t1" seeded
     = (Ok (1, r1), d1) /\
   create_booking "Bob" "Single" "2024-01-12" "2024-01-13" "t2" d1
     = (Ok (2, r2), d2)) /\
  r_id r1 <> r_id r2.
Proof.
  intros r1 r2 d1 d2.
  split; [repeat split|].
  apply (overlapping_admissions_differ
           "Ann" "Single" "2024-01-10" "2024-01-15" "t1"
           "Bob" "Single" "2024-01-12" "2024-01-13" "t2"
           seeded 1 r1 d1 2 r2 d2); reflexivity.
Defined.

(* ------------------------------------------------------------------ *)
(** ** Cancellations of different bookings *)

Lemma set_row_comm st i j n1 n2 b :
  i <> j ->
  Sql.set_row st n1 i (Sql.set_row st n2 j b) =
  Sql.set_row st n2 j (Sql.set_row st n1 i b).
Proof.
  intros Hij. unfold Sql.set_row.
  destruct (b_id b =? j) eqn:Ej, (b_id b =? i) eqn:Ei; cbn [b_id];
    rewrite ?Ej, ?Ei; try reflexivity.
  apply Z.eqb_eq in Ej, Ei. congruence.
Qed.

Lemma lookup_status_other d st now i j :
  i <> j ->
  option_map b_status (lookup (Sql.update_status d st now j) i) =
  option_map b_status (lookup d i).
Proof.
  intros Hij. rewrite lookup_update.
  destruct (lookup d i) as [b|] eqn:L; [|reflexivity].
  cbn [option_map]. rewrite set_row_other; [reflexivity|].
  rewrite (lookup_id d i b L). exact Hij.
Qed.

Lemma cancel_booking_by_status i now d :
  cancel_booking i now d =
  match option_map b_status (lookup d i) with
  | None => (Raise NotFound, d)
  | Some s =>
      if (s =? "cancelled")%string then (Raise AlreadyCancelled, d)
      else (Ok true, Sql.update_status d "cancelled" now i)
  end.
Proof.
  rewrite cancel_booking_cases. fold (lookup d i).
  destruct (lookup d i); reflexivity.
Qed.

(** X11: Cancelling two different bookings gives the same database and the
    same two results in either order. *)
Theorem cancellations_commute i j n1 n2 d :
  i <> j ->
  snd (cancel_booking i n1 (snd (cancel_booking j n2 d))) =
  snd (cancel_booking j n2 (snd (cancel_booking i n1 d))) /\
  fst (cancel_booking i n1 (snd (cancel_booking j n2 d))) =
  fst (cancel_booking i n1 d) /\
  fst (cancel_booking j n2 (snd (cancel_booking i n1 d))) =
  fst (cancel_booking j n2 d).
Proof.
  intros Hij.
  assert (j <> i) as Hji by congruence.
  rewrite (cancel_booking_by_status j n2 d), (cancel_booking_by_status i n1 d).
  destruct (option_map b_status (lookup d j)) as [sj|] eqn:Lj;
    destruct (option_map b_status (lookup d i)) as [si|] eqn:Li;
    try destruct (sj =? "cancelled")%string eqn:Sj;
    try destruct (si =? "cancelled")%string eqn:Si;
    cbn [fst snd];
    rewrite ?cancel_booking_by_status, ?lookup_status_other by assumption;
    rewrite ?Lj, ?Li, ?Sj, ?Si; cbn [fst snd]; repeat split.
  unfold Sql.update_status. cbn [rooms bookings]. f_equal.
  rewrite !map_map. apply map_ext. intros b. apply set_row_comm, Hij.
Qed.

Lemma cancellations_commute_witness :
  let d := run [CreateBooking "Ann" "Single" "2024-01-10" "2024-01-12" "t1";
                CreateBooking "Bob" "Single" "2024-01-10" "2024-01-12" "t2"]
               seeded in
  1 <> 2 /\
  (snd (cancel_booking 1 "t3" (snd (cancel_booking 2 "t4" d))) =
   snd (cancel_booking 2 "t4" (snd (cancel_booking 1 "t3" d))) /\
   fst (cancel_booking 1 "t3" (snd (cancel_booking 2 "t4" d))) =
   fst (cancel_booking 1 "t3" d) /\
   fst (cancel_booking 2 "t4" (snd (cancel_booking 1 "t3" d))) =
   fst (cancel_booking 2 "t4" d)).
Proof.
  intros d. assert (1 <> 2) as W by lia.
  split; [exact W|].
  exact (cancellations_commute 1 2 "t3" "t4" d W).
Defined.

(* ------------------------------------------------------------------ *)
(** ** What [list_bookings] shows after an operation *)

Lemma listed_eq status d :
  listed status d =
  Sql.order_by_created_at_desc
    (filter (fun l => wanted status (l_booking l)) (Sql.join d)).
Proof.
  unfold listed.
  destruct (list_bookings_selects status d) as [sel [E Hsel]].
  rewrite E, Hsel. reflexivity.
Qed.

Lemma In_listed status d l :
  In l (listed status d) <->
  In l (Sql.join d) /\ wanted status (l_booking l) = true.
Proof.
  rewrite listed_eq. split; intros H.
  - apply (Permutation_in _ (order_by_perm _)) in H.
    apply (filter_In (fun l => wanted status (l_booking l))) in H. exact H.
  - apply (Permutation_in _ (Permutation_sym (order_by_perm _))).
    apply (filter_In (fun l => wanted status (l_booking l))). exact H.
Qed.

Lemma join_In d b r :
  In b (bookings d) -> In r (rooms d) -> r_id r = b_room_id b ->
  In (listing_of b r) (Sql.join d).
Proof.
  intros Hb Hr Hid. unfold Sql.join. apply in_flat_map. exists b.
  split; [exact Hb|].
  apply (in_map (fun r => mkListing b (r_room_type r) (r_room_number r)
                                    (r_price r))).
  apply filter_In. split; [exact Hr | apply Z.eqb_eq, Hid].
Qed.

Lemma join_booking d l : In l (Sql.join d) -> In (l_booking l) (bookings d).
Proof.
  unfold Sql.join. intros H. apply in_flat_map in H.
  destruct H as [b [Hb H]]. apply in_map_iff in H.
  destruct H as [r [E _]]. subst l. exact Hb.
Qed.

(** X12: A booking just made is listed, with the number, type and price of the
    room that was returned, both by [list_bookings()] and by
    [list_bookings("active")], and not by [list_bookings("cancelled")]. *)
Theorem create_booking_then_listed g t ci co now d booking_id room d' :
  create_booking g t ci co now d = (Ok (booking_id, room), d') ->
  let row := listing_of
               (mkBooking booking_id (r_id room) g ci co "active" now None)
               room in
  In row (listed None d') /\
  In row (listed (Some "active") d') /\
  ~ In row (listed (Some "cancelled") d').
Proof.
  rewrite create_booking_cases.
  destruct (parse_date ci); [|discriminate].
  destruct (parse_date co); [|discriminate].
  destruct (Date.ltb _ _); [|discriminate].
  destruct (Sql.select_available d t ci co) as [|r0 rest] eqn:Hav;
    [discriminate|].
  intros E. inversion E; subst; clear E. intros row.
  assert (In room (Sql.select_available d t ci co)) as Hin
    by (rewrite Hav; left; reflexivity).
  apply select_available_In in Hin. destruct Hin as [Hr _].
  assert (In row (Sql.join (mkDb (rooms d)
            (bookings d ++ [new_booking d room g ci co now])))) as J.
  { apply join_In; [|exact Hr | reflexivity].
    cbn [bookings]. apply in_or_app. right. left. reflexivity. }
  split; [|split].
  - apply In_listed. split; [exact J | reflexivity].
  - apply In_listed. split; [exact J | reflexivity].
  - intros H. apply In_listed in H. destruct H as [_ H]. discriminate.
Qed.

Lemma create_booking_then_listed_witness :
  let room := mkRoom 1 "Single" "S101" (1500 # 1) in
  let d' := snd (create_booking "Ann" "Single" "2024-01-10" "2024-01-12" "t1"
                   seeded) in
  create_booking "Ann" "Single" "2024-01-10" "2024-01-12" "t1" seeded
    = (Ok (1, room), d') /\
  let row := listing_of
               (mkBooking 1 (r_id room) "Ann" "2024-01-10" "2024-01-12"
                          "active" "t1" None) room in
  In row (listed None d') /\
  In row (listed (Some "active") d') /\
  ~ In row (listed (Some "cancelled") d').
Proof.
  intros room d'.
  assert (create_booking "Ann" "Single" "2024-01-10" "2024-01-12" "t1" seeded
          = (Ok (1, room), d')) as W by reflexivity.
  split; [exact W|].
  exact (create_booking_then_listed "Ann" "Single" "2024-01-10" "2024-01-12"
           "t1" seeded 1 room d' W).
Defined.

Lemma filter_split_perm {A} (p q : A -> bool) l :
  (forall x, In x l -> p x = negb (q x)) ->
  Permutation l (filter p l ++ filter q l).
Proof.
  induction l as [|x l IH]; intros H; [constructor|].
  assert (Permutation l (filter p l ++ filter q l)) as P.
  { apply IH. intros y Hy. apply H. right. exact Hy. }
  cbn [filter]. rewrite (H x (or_introl eq_refl)).
  destruct (q x); cbn [negb].
  - apply Permutation_cons_app. exact P.
  - cbn [app]. apply perm_skip. exact P.
Qed.

(** X13: In a reachable state [list_bookings("active")] and
    [list_bookings("cancelled")] split the rows of [list_bookings()]: every
    row is in exactly one of the two. *)
Theorem listing_splits_by_status d :
  reachable d ->
  Permutation (listed None d)
              (listed (Some "active") d ++ listed (Some "cancelled") d).
Proof.
  intros R. pose proof (reachable_Inv d R) as H.
  rewrite !listed_eq.
  eapply perm_trans; [apply order_by_perm|].
  eapply perm_trans;
    [|apply Permutation_app; apply Permutation_sym, order_by_perm].
  cbn [wanted truthy]. rewrite filter_true.
  apply filter_split_perm. intros l Hl. cbn [String.eqb negb].
  destruct (status_active_or_cancelled d (l_booking l) H (join_booking d l Hl))
    as [E|E]; rewrite E; reflexivity.
Qed.

Lemma listing_splits_by_status_witness :
  let d := run [CreateBooking "Ann" "Single" "2024-01-10" "2024-01-12" "t1";
                CreateBooking "Bob" "Double" "2024-01-10" "2024-01-12" "t2";
                CancelBooking 1 "t3"] seeded in
  reachable d /\
  Permutation (listed None d)
              (listed (Some "active") d ++ listed (Some "cancelled") d).
Proof.
  intros d. split.
  - apply reachable_seeded.
  - apply (listing_splits_by_status d). apply reachable_seeded.
Defined.

Lemma join_row_of d b :
  Inv d -> In b (bookings d) -> exists l, In l (Sql.join d) /\ l_booking l = b.
Proof.
  intros H Hb. rewrite <- (join_bookings d H) in Hb.
  apply in_map_iff in Hb. destruct Hb as [l [E Hl]]. eauto.
Qed.

(** X14: After a successful cancellation in a reachable state the booking is
    among the rows of [list_bookings("cancelled")], stamped with the time
    of the call, and no row of [list_bookings("active")] carries its
    identifier. *)
Theorem cancel_booking_then_listed i now d d' :
  reachable d ->
  cancel_booking i now d = (Ok true, d') ->
  (exists l, In l (listed (Some "cancelled") d') /\
             b_id (l_booking l) = i /\
             b_cancelled_at (l_booking l) = Some now) /\
  (forall l, In l (listed (Some "active") d') -> b_id (l_booking l) <> i).
Proof.
  intros R. pose proof (reachable_Inv d R) as H.
  rewrite cancel_booking_cases. fold (lookup d i).
  destruct (lookup d i) as [b|] eqn:L; [|discriminate].
  destruct (b_status b =? "cancelled")%string; [discriminate|].
  intros E. inversion E; subst d'; clear E.
  set (d' := Sql.update_status d "cancelled" now i).
  assert (Inv d') as H' by (apply Inv_update, H).
  assert (lookup d' i = Some (cancelled_at now b)) as L'.
  { unfold d'. rewrite lookup_update, L. cbn [option_map].
    unfold Sql.set_row. replace (b_id b =? i) with true; [reflexivity|].
    symmetry. apply Z.eqb_eq, (lookup_id d i b L). }
  split.
  - destruct (join_row_of d' (cancelled_at now b) H' (lookup_In d' i _ L'))
      as [l [Hl El]].
    exists l. split; [|rewrite El; split;
                       [exact (lookup_id d i b L) | reflexivity]].
    apply In_listed. split; [exact Hl|]. rewrite El. reflexivity.
  - intros l Hl Hid. apply In_listed in Hl. destruct Hl as [Hl W].
    pose proof (lookup_unique d' (l_booking l) H' (join_booking d' l Hl)) as U.
    rewrite Hid, L' in U. inversion U as [Q].
    rewrite <- Q in W. discriminate.
Qed.

Lemma cancel_booking_then_listed_witness :
  let d := run [CreateBooking "Ann" "Single" "2024-01-10" "2024-01-12" "t1"]
               seeded in
  let d' := snd (cancel_booking 1 "t2" d) in
  (reachable d /\ cancel_booking 1 "t2" d = (Ok true, d')) /\
  ((exists l, In l (listed (Some "cancelled") d') /\
              b_id (l_booking l) = 1 /\
              b_cancelled_at (l_booking l) = Some "t2") /\
   (forall l, In l (listed (Some "active") d') -> b_id (l_booking l) <> 1)).
Proof.
  intros d d'.
  assert (reachable d /\ cancel_booking 1 "t2" d = (Ok true, d')) as W.
  { split; [apply reachable_seeded | reflexivity]. }
  split; [exact W|]. destruct W as [W1 W2].
  exact (cancel_booking_then_listed 1 "t2" d d' W1 W2).
Defined.

(* ------------------------------------------------------------------ *)
(** ** Dates the engine accepts *)

(** X15: Every day of the calendar written YYYY-MM-DD is accepted by
    [parse_date], which returns that day; and between two such strings the
    comparison of the text, which the availability query uses, is the
    comparison of the days. *)
Theorem zero_padded_dates_read_back y m dd y' m' dd' :
  Date.valid y m dd = true -> Date.valid y' m' dd' = true ->
  parse_date (Iso.isoformat (Date.mkDate y m dd)) = Some (Date.mkDate y m dd) /\
  Sql.text_le (Iso.isoformat (Date.mkDate y m dd))
              (Iso.isoformat (Date.mkDate y' m' dd'))
  = Date.leb (Date.mkDate y m dd) (Date.mkDate y' m' dd').
Proof.
  intros V V'. split; [apply parse_date_isoformat, V|].
  apply text_le_zero_padded;
    auto using zero_padded_isoformat, parse_date_isoformat.
Qed.

Lemma zero_padded_dates_read_back_witness :
  (Date.valid 2024 1 31 = true /\ Date.valid 2024 2 1 = true) /\
  (parse_date (Iso.isoformat (Date.mkDate 2024 1 31))
     = Some (Date.mkDate 2024 1 31) /\
   Sql.text_le (Iso.isoformat (Date.mkDate 2024 1 31))
               (Iso.isoformat (Date.mkDate 2024 2 1))
   = Date.leb (Date.mkDate 2024 1 31) (Date.mkDate 2024 2 1)).
Proof.
  split; [split; reflexivity|].
  apply (zero_padded_dates_read_back 2024 1 31 2024 2 1); reflexivity.
Defined.

(* ------------------------------------------------------------------ *)
(** ** Sessions that write their dates YYYY-MM-DD *)

(** X16: Starting from an empty ledger, as long as every request writes both
    dates zero-padded, no two active bookings of a room ever intersect on
    the calendar. *)
Theorem zero_padded_sessions_never_overlap ops d :
  fresh d -> Forall op_zero_padded ops -> no_overlap (run ops d).
Proof. apply no_overlap_zero_padded_run. Qed.

Lemma zero_padded_sessions_never_overlap_witness :
  let ops := [CreateBooking "Ann" "Deluxe" "2024-01-10" "2024-01-20" "t1";
              CreateBooking "Bob" "Deluxe" "2024-01-12" "2024-01-14" "t2";
              CancelBooking 1 "t3";
              CreateBooking "Cid" "Deluxe" "2024-01-12" "2024-01-14" "t4"] in
  (fresh seeded /\ Forall op_zero_padded ops) /\ no_overlap (run ops seeded).
Proof.
  intros ops.
  assert (Forall op_zero_padded ops) as Z.
  { repeat constructor. }
  split; [split; [exact fresh_seeded | exact Z]|].
  exact (zero_padded_sessions_never_overlap ops seeded fresh_seeded Z).
Defined.

(** X17: When the ledger and the request are written zero-padded,
    [available_rooms] returns exactly the rooms of the type that no active
    booking occupies during the requested days, in catalog order. *)
Theorem available_rooms_exact_zero_padded d t ci co :
  ledger_zero_padded d -> zero_padded ci = true -> zero_padded co = true ->
  available_rooms t ci co d = (Ok (free_rooms d t ci co), d).
Proof.
  intros L Zi Zo. unfold available_rooms, query.
  rewrite (select_available_zero_padded d t ci co L Zi Zo). reflexivity.
Qed.

Lemma available_rooms_exact_zero_padded_witness :
  let d := run [CreateBooking "Ann" "Deluxe" "2024-01-10" "2024-01-20" "t1"]
               seeded in
  (ledger_zero_padded d /\ zero_padded "2024-01-12" = true /\
   zero_padded "2024-01-14" = true) /\
  available_rooms "Deluxe" "2024-01-12" "2024-01-14" d
    = (Ok (free_rooms d "Deluxe" "2024-01-12" "2024-01-14"), d).
Proof.
  intros d.
  assert (ledger_zero_padded d) as L.
  { repeat constructor. }
  split; [split; [exact L | split; reflexivity]|].
  exact (available_rooms_exact_zero_padded d "Deluxe" "2024-01-12"
           "2024-01-14" L eq_refl eq_refl).
Defined.

(* ------------------------------------------------------------------ *)
(** ** The console *)

Module ConsoleFacts.
Import Console.

Lemma final_db_say o r : final_db (say o r) = final_db r.
Proof. reflexivity. Qed.

Lemma ended_say o r : ended (say o r) = ended r.
Proof. reflexivity. Qed.

Lemma printed_say o r : printed (say o r) = o ++ printed r.
Proof. reflexivity. Qed.

Lemma list_bookings_keeps status d : snd (list_bookings status d) = d.
Proof.
  destruct (list_bookings_selects status d) as [sel [E _]].
  rewrite E. reflexivity.
Qed.

Lemma create_choice_db now g t ci co d :
  snd (create_choice now g t ci co d) = exec (CreateBooking g t ci co now) d.
Proof.
  unfold create_choice. cbn [exec].
  destruct (create_booking g t ci co now d) as [[[i r]|e] d']; reflexivity.
Qed.

Lemma cancel_choice_db now bid d :
  snd (cancel_choice now bid d) = d \/
  exists i, snd (cancel_choice now bid d) = exec (CancelBooking i now) d.
Proof.
  unfold cancel_choice.
  destruct (py_int bid) as [i|]; [|left; reflexivity].
  destruct (fits_int64 i); [|left; reflexivity].
  right. exists i. cbn [exec].
  destruct (cancel_booking i now d) as [[b|e] d']; reflexivity.
Qed.

Lemma report_db E opt d : snd (report E opt d) = d.
Proof.
  assert (forall path, snd (export_bookings path d) = d) as X.
  { intros path. unfold export_bookings, bind, ret.
    pose proof (list_bookings_keeps None d) as K.
    destruct (list_bookings None d) as [[rows|e] d']; exact K. }
  unfold report.
  destruct (opt =? "1")%string.
  { specialize (X "bookings_report.csv").
    destruct (export_bookings _ d) as [[p|e] d']; exact X. }
  destruct (opt =? "2")%string.
  { specialize (X "bookings_report.txt").
    destruct (export_bookings _ d) as [[p|e] d']; exact X. }
  destruct (opt =? "3")%string; [|reflexivity].
  destruct (reportlab E); [|reflexivity].
  specialize (X "bookings_report.pdf").
  destruct (export_bookings _ d) as [[p|e] d']; exact X.
Qed.

Lemma main_menu_reachable E n :
  forall stdin turn d,
    (List.length stdin <= n)%nat -> reachable d ->
    reachable (final_db (main_menu E turn stdin d)).
Proof.
  induction n as [|n IH]; intros stdin turn d Hn R;
    destruct stdin as [|line rest]; cbn [main_menu]; try exact R;
    cbn [List.length] in Hn; [lia|].
  destruct (strip line =? "1")%string.
  { destruct rest as [|g [|t [|ci [|co rest']]]]; try exact R.
    pose proof (create_choice_db (clock E turn) g t ci co d) as C.
    destruct (create_choice (clock E turn) g t ci co d) as [o d'].
    cbn [snd] in C. rewrite final_db_say. apply IH.
    - cbn [List.length] in Hn. lia.
    - rewrite C. apply reach_exec, R. }
  destruct (strip line =? "2")%string.
  { destruct rest as [|bid rest']; try exact R.
    pose proof (cancel_choice_db (clock E turn) bid d) as C.
    destruct (cancel_choice (clock E turn) bid d) as [o d'].
    cbn [snd] in C. rewrite final_db_say. apply IH.
    - cbn [List.length] in Hn. lia.
    - destruct C as [C|[i C]]; rewrite C; [exact R | apply reach_exec, R]. }
  destruct (strip line =? "3")%string.
  { rewrite final_db_say. apply IH; [lia|].
    rewrite list_bookings_keeps. exact R. }
  destruct (strip line =? "4")%string.
  { destruct rest as [|opt rest']; try exact R.
    pose proof (report_db E (strip opt) d) as C.
    destruct (report E (strip opt) d) as [o d'].
    cbn [snd] in C. rewrite final_db_say. apply IH.
    - cbn [List.length] in Hn. lia.
    - rewrite C. exact R. }
  destruct (strip line =? "5")%string; [exact R|].
  rewrite final_db_say. apply IH; [lia | exact R].
Qed.

Lemma main_menu_read_only E n :
  forall stdin turn d,
    (List.length stdin <= n)%nat ->
    Forall (fun c => c <> "1" /\ c <> "2") (choices stdin) ->
    final_db (main_menu E turn stdin d) = d.
Proof.
  induction n as [|n IH]; intros stdin turn d Hn F;
    destruct stdin as [|line rest]; cbn [main_menu]; try reflexivity;
    cbn [List.length] in Hn; [lia|].
  cbn [choices] in F. inversion F as [|c cs [N1 N2] F']; subst.
  destruct (String.eqb_spec (strip line) "1"); [contradiction|].
  destruct (String.eqb_spec (strip line) "2"); [contradiction|].
  cbn [orb] in F'.
  destruct (String.eqb_spec (strip line) "3") as [E3|N3].
  { rewrite E3 in F'. simpl in F'.
    rewrite final_db_say, IH; [apply list_bookings_keeps | lia | exact F']. }
  destruct (String.eqb_spec (strip line) "4") as [E4|N4].
  { destruct rest as [|opt rest']; [reflexivity|].
    pose proof (report_db E (strip opt) d) as C.
    destruct (report E (strip opt) d) as [o d'].
    cbn [snd] in C. subst d'. rewrite final_db_say. apply IH; [|exact F'].
    cbn [List.length] in Hn. lia. }
  destruct (String.eqb_spec (strip line) "5") as [E5|N5]; [reflexivity|].
  rewrite final_db_say. apply IH; [lia | exact F'].
Qed.

Lemma main_menu_quit E n :
  forall stdin turn d,
    (List.length stdin <= n)%nat ->
    (ended (main_menu E turn stdin d) = Quit <-> In "5" (choices stdin)) /\
    (ended (main_menu E turn stdin d) = Quit ->
     exists out, printed (main_menu E turn stdin d) = out ++ [Goodbye]).
Proof.
  assert (forall (o : list output) r,
            (exists out, printed r = out ++ [Goodbye]) ->
            exists out, printed (say o r) = out ++ [Goodbye]) as Say.
  { intros o r [out P]. exists (o ++ out).
    rewrite printed_say, P. apply app_assoc. }
  assert (forall c cs, c <> "5" -> (In "5" (c :: cs) <-> In "5" cs)) as Skip.
  { intros c cs Hc. split; [intros [H|H]; [contradiction | exact H]|].
    intros H. right. exact H. }
  induction n as [|n IH]; intros stdin turn d Hn;
    destruct stdin as [|line rest]; cbn [main_menu choices];
    try (split; [split; [discriminate | contradiction] | discriminate]);
    cbn [List.length] in Hn; [lia|].
  destruct (String.eqb_spec (strip line) "1") as [E1|N1].
  { rewrite Skip by (rewrite E1; discriminate).
    destruct rest as [|g [|t [|ci [|co rest']]]];
      try (split; [split; [discriminate | contradiction] | discriminate]).
    destruct (create_choice (clock E turn) g t ci co d) as [o d'].
    rewrite ended_say.
    destruct (IH rest' (S turn) d') as [I1 I2];
      [cbn [List.length] in Hn; lia|].
    split; [exact I1 | intros Q; apply Say, I2, Q]. }
  destruct (String.eqb_spec (strip line) "2") as [E2|N2].
  { rewrite Skip by (rewrite E2; discriminate). cbn [orb].
    destruct rest as [|bid rest'];
      try (split; [split; [discriminate | contradiction] | discriminate]).
    destruct (cancel_choice (clock E turn) bid d) as [o d'].
    rewrite ended_say.
    destruct (IH rest' (S turn) d') as [I1 I2];
      [cbn [List.length] in Hn; lia|].
    split; [exact I1 | intros Q; apply Say, I2, Q]. }
  cbn [orb].
  destruct (String.eqb_spec (strip line) "3") as [E3|N3].
  { rewrite Skip by (rewrite E3; discriminate).
    rewrite E3. simpl String.eqb. cbn iota. rewrite ended_say.
    destruct (IH rest (S turn) (snd (list_bookings None d))) as [I1 I2];
      [lia|].
    split; [exact I1 | intros Q; apply Say, I2, Q]. }
  destruct (String.eqb_spec (strip line) "4") as [E4|N4].
  { rewrite Skip by (rewrite E4; discriminate).
    destruct rest as [|opt rest'];
      try (split; [split; [discriminate | contradiction] | discriminate]).
    destruct (report E (strip opt) d) as [o d'].
    rewrite ended_say.
    destruct (IH rest' (S turn) d') as [I1 I2];
      [cbn [List.length] in Hn; lia|].
    split; [exact I1 | intros Q; apply Say, I2, Q]. }
  destruct (String.eqb_spec (strip line) "5") as [E5|N5].
  { split; [split; [intros _; left; exact E5 | reflexivity]|].
    intros _. exists [Menu]. reflexivity. }
  rewrite Skip by exact N5. rewrite ended_say.
  destruct (IH rest (S turn) d) as [I1 I2]; [lia|].
  split; [exact I1 | intros Q; apply Say, I2, Q].
Qed.

Lemma main_menu_after_quit E n :
  forall stdin turn d extra,
    (List.length stdin <= n)%nat ->
    ended (main_menu E turn stdin d) = Quit ->
    main_menu E turn (stdin ++ extra) d = main_menu E turn stdin d.
Proof.
  induction n as [|n IH]; intros stdin turn d extra Hn Q;
    destruct stdin as [|line rest]; cbn [main_menu] in Q; try discriminate;
    cbn [List.length] in Hn; [lia|].
  cbn [app main_menu].
  destruct (strip line =? "1")%string.
  { destruct rest as [|g [|t [|ci [|co rest']]]]; try discriminate.
    cbn [app].
    destruct (create_choice (clock E turn) g t ci co d) as [o d'].
    rewrite ended_say in Q. rewrite IH; [reflexivity | | exact Q].
    cbn [List.length] in Hn. lia. }
  destruct (strip line =? "2")%string.
  { destruct rest as [|bid rest']; try discriminate. cbn [app].
    destruct (cancel_choice (clock E turn) bid d) as [o d'].
    rewrite ended_say in Q. rewrite IH; [reflexivity | | exact Q].
    cbn [List.length] in Hn. lia. }
  destruct (strip line =? "3")%string.
  { rewrite ended_say in Q. rewrite IH; [reflexivity | lia | exact Q]. }
  destruct (strip line =? "4")%string.
  { destruct rest as [|opt rest']; try discriminate. cbn [app].
    destruct (report E (strip opt) d) as [o d'].
    rewrite ended_say in Q. rewrite IH; [reflexivity | | exact Q].
    cbn [List.length] in Hn. lia. }
  destruct (strip line =? "5")%string; [reflexivity|].
  rewrite ended_say in Q. rewrite IH; [reflexivity | lia | exact Q].
Qed.

End ConsoleFacts.

(** X18: Whatever is typed at the console, the database stays in a state the
    engine can reach: every invariant of the engine holds after the
    session, however it ends. *)
Theorem console_keeps_reachable E turn stdin d :
  reachable d ->
  reachable (Console.final_db (Console.main_menu E turn stdin d)).
Proof.
  apply (ConsoleFacts.main_menu_reachable E (List.length stdin)). lia.
Qed.

Lemma console_keeps_reachable_witness :
  let E := Console.mkEnv false (fun _ => "2024-01-01T00:00:00") in
  let stdin := ["1"; "Ann"; "Single"; "2024-01-10"; "2024-01-12";
                "2"; "one"; "2"; "1"; "3"; "4"; "3"; "7"] in
  reachable seeded /\
  reachable (Console.final_db (Console.main_menu E 0 stdin seeded)).
Proof.
  intros E stdin.
  assert (reachable seeded) as R by (apply reach_fresh, fresh_seeded).
  split; [exact R|].
  exact (console_keeps_reachable E 0 stdin seeded R).
Defined.

(** X19: A console session in which neither 1 nor 2 is chosen at the menu
    (listing, exporting, mistyped choices, quitting) leaves the database
    exactly as it found it. *)
Theorem console_read_only E turn stdin d :
  Forall (fun c => c <> "1" /\ c <> "2") (Console.choices stdin) ->
  Console.final_db (Console.main_menu E turn stdin d) = d.
Proof.
  apply (ConsoleFacts.main_menu_read_only E (List.length stdin)). lia.
Qed.

Lemma console_read_only_witness :
  let E := Console.mkEnv true (fun _ => "2024-01-01T00:00:00") in
  let stdin := ["3"; " 4 "; "1"; "4"; "2"; "x"; "5"] in
  Forall (fun c => c <> "1" /\ c <> "2") (Console.choices stdin) /\
  Console.final_db (Console.main_menu E 0 stdin seeded) = seeded.
Proof.
  intros E stdin.
  assert (Forall (fun c => c <> "1" /\ c <> "2") (Console.choices stdin))
    as F.
  { repeat constructor; discriminate. }
  split; [exact F|].
  exact (console_read_only E 0 stdin seeded F).
Defined.

(** X20: The console ends by itself exactly when 5 is chosen at the menu, and
    then "Goodbye!" is the last thing printed; a session without that
    choice runs until the input is exhausted and dies of EOFError. *)
Theorem console_quits_on_five E turn stdin d :
  (Console.ended (Console.main_menu E turn stdin d) = Console.Quit <->
   In "5" (Console.choices stdin)) /\
  (Console.ended (Console.main_menu E turn stdin d) = Console.Quit ->
   exists out,
     Console.printed (Console.main_menu E turn stdin d)
     = out ++ [Console.Goodbye]).
Proof.
  apply (ConsoleFacts.main_menu_quit E (List.length stdin)). lia.
Qed.

(** X21: Once 5 is chosen nothing more is read: lines that follow a session
    ending in a normal exit change neither what is printed nor the
    database. *)
Theorem console_ignores_input_after_quit E turn stdin d extra :
  Console.ended (Console.main_menu E turn stdin d) = Console.Quit ->
  Console.main_menu E turn (stdin ++ extra) d
  = Console.main_menu E turn stdin d.
Proof.
  apply (ConsoleFacts.main_menu_after_quit E (List.length stdin)). lia.
Qed.

Lemma console_ignores_input_after_quit_witness :
  let E := Console.mkEnv true (fun _ => "2024-01-01T00:00:00") in
  let stdin := ["3"; "5"] in
  let extra := ["1"; "Ann"; "Single"; "2024-01-10"; "2024-01-12"] in
  Console.ended (Console.main_menu E 0 stdin seeded) = Console.Quit /\
  Console.main_menu E 0 (stdin ++ extra) seeded
  = Console.main_menu E 0 stdin seeded.
Proof.
  intros E stdin extra.
  assert (Console.ended (Console.main_menu E 0 stdin seeded) = Console.Quit)
    as Q by reflexivity.
  split; [exact Q|].
  exact (console_ignores_input_after_quit E 0 stdin seeded extra Q).
Defined.

Lemma create_booking_outcome g t ci co now d :
  (exists e, create_booking g t ci co now d = (Raise e, d)) \/
  (exists i r d', create_booking g t ci co now d = (Ok (i, r), d')).
Proof.
  rewrite create_booking_cases.
  destruct (parse_date ci); [|left; eauto].
  destruct (parse_date co); [|left; eauto].
  destruct (Date.ltb _ _); [|left; eauto].
  destruct (Sql.select_available d t ci co); [left | right]; eauto.
Qed.

(** X22: When the console answers choice 1 or choice 2 with an error message,
    whatever the cause (a date that does not parse, no room, an identifier
    that is not a number or does not fit SQLite, an unknown or cancelled
    booking), the database is as it was before. *)
Theorem console_error_keeps_db now d f :
  (forall guest room_type check_in check_out,
     fst (Console.create_choice now guest room_type check_in check_out d)
       = Console.Error f ->
     snd (Console.create_choice now guest room_type check_in check_out d)
       = d) /\
  (forall bid,
     fst (Console.cancel_choice now bid d) = Console.Error f ->
     snd (Console.cancel_choice now bid d) = d).
Proof.
  split.
  - intros g t ci co. unfold Console.create_choice.
    destruct (create_booking_outcome g t ci co now d)
      as [[e K]|[i [r [d' K]]]]; rewrite K; [reflexivity | discriminate].
  - intros bid. unfold Console.cancel_choice.
    destruct (Console.py_int bid) as [i|]; [|reflexivity].
    destruct (Console.fits_int64 i); [|reflexivity].
    rewrite cancel_booking_cases.
    destruct (find _ (bookings d)) as [b|]; [|reflexivity].
    destruct (b_status b =? "cancelled")%string; [reflexivity | discriminate].
Qed.

(* ------------------------------------------------------------------ *)
(** ** The window *)

Module GuiFacts.
Import Gui.

Lemma load_bookings_up_to_date a : up_to_date (load_bookings a).
Proof.
  unfold up_to_date, load_bookings. cbn [database tree].
  rewrite ConsoleFacts.list_bookings_keeps. reflexivity.
Qed.

Lemma load_bookings_database a : database (load_bookings a) = database a.
Proof. apply ConsoleFacts.list_bookings_keeps. Qed.

End GuiFacts.

(** X23: The table of the window keeps showing the bookings of the database:
    if it does before "Create Booking", "Cancel Booking" or "Refresh" is
    pressed, it does afterwards, whether the operation succeeds (the table
    is reloaded) or fails (nothing was written). *)
Theorem window_table_up_to_date a :
  Gui.up_to_date a ->
  (forall now guest rtype ci co,
     Gui.up_to_date (snd (Gui.create_booking_clicked now guest rtype ci co a)))
  /\
  (forall now selected,
     Gui.up_to_date (snd (Gui.cancel_booking_clicked now selected a))) /\
  Gui.up_to_date (Gui.load_bookings a).
Proof.
  intros U. split; [|split].
  - intros now guest rtype ci co. unfold Gui.create_booking_clicked.
    destruct (create_booking_outcome guest rtype ci co now (Gui.database a))
      as [[e K]|[i [r [d' K]]]]; rewrite K; cbn [snd].
    + exact U.
    + apply GuiFacts.load_bookings_up_to_date.
  - intros now selected. unfold Gui.cancel_booking_clicked.
    destruct selected as [|first rest]; [exact U|].
    rewrite cancel_booking_cases.
    destruct (find _ (bookings (Gui.database a))) as [b|]; [|exact U].
    destruct (b_status b =? "cancelled")%string; [exact U|].
    apply GuiFacts.load_bookings_up_to_date.
  - apply GuiFacts.load_bookings_up_to_date.
Qed.

Lemma window_table_up_to_date_witness :
  let a := Gui.load_bookings (Gui.mkApp seeded []) in
  Gui.up_to_date a /\
  ((forall now guest rtype ci co,
      Gui.up_to_date
        (snd (Gui.create_booking_clicked now guest rtype ci co a))) /\
   (forall now selected,
      Gui.up_to_date (snd (Gui.cancel_booking_clicked now selected a))) /\
   Gui.up_to_date (Gui.load_bookings a)).
Proof.
  intros a.
  assert (Gui.up_to_date a) as U by reflexivity.
  split; [exact U|].
  exact (window_table_up_to_date a U).
Defined.

Lemma cancelled_row_joined i now d b :
  Inv d -> lookup d i = Some b ->
  exists l, In l (Sql.join (Sql.update_status d "cancelled" now i)) /\
            l_booking l = cancelled_at now b.
Proof.
  intros H L.
  apply join_row_of; [apply Inv_update, H|].
  apply (lookup_In _ i). rewrite lookup_update, L. cbn [option_map].
  unfold Sql.set_row. replace (b_id b =? i) with true; [reflexivity|].
  symmetry. apply Z.eqb_eq, (lookup_id d i b L).
Qed.

(** X24: In a window whose table is up to date, pressing "Cancel Booking" on a
    row shown as active cancels that booking and the reloaded table shows
    it as cancelled; on a row shown as cancelled it reports that the
    booking is already cancelled and changes nothing. *)
Theorem window_cancel_selected_row now first rest a :
  reachable (Gui.database a) -> Gui.up_to_date a -> In first (Gui.tree a) ->
  (Gui.v_status first = "active" ->
   exists a',
     Gui.cancel_booking_clicked now (first :: rest) a
       = (Gui.ShowInfoCancelled (Gui.v_id first), a') /\
     exists shown,
       In shown (Gui.tree a') /\ Gui.v_id shown = Gui.v_id first /\
       Gui.v_status shown = "cancelled") /\
  (Gui.v_status first = "cancelled" ->
   Gui.cancel_booking_clicked now (first :: rest) a
     = (Gui.ShowError AlreadyCancelled, a)).
Proof.
  intros R U Hin. pose proof (reachable_Inv _ R) as H.
  rewrite U in Hin. apply in_map_iff in Hin. destruct Hin as [l [E Hl]].
  apply In_listed in Hl. destruct Hl as [Hl _].
  pose proof (join_booking _ l Hl) as Hb.
  pose proof (lookup_unique _ _ H Hb) as L.
  assert (Gui.v_id first = b_id (l_booking l)) as Eid by (subst; reflexivity).
  assert (Gui.v_status first = b_status (l_booking l)) as Est
    by (subst; reflexivity).
  unfold Gui.cancel_booking_clicked. rewrite cancel_booking_cases.
  fold (lookup (Gui.database a) (Gui.v_id first)). rewrite Eid, L, Est.
  split; intros S; rewrite S; cbn [String.eqb Ascii.eqb Bool.eqb].
  - eexists. split; [reflexivity|].
    destruct (cancelled_row_joined (b_id (l_booking l)) now (Gui.database a)
                (l_booking l) H L) as [l' [Hl' El']].
    exists (Gui.row_of l'). split.
    + cbn [Gui.load_bookings Gui.tree Gui.database]. apply in_map.
      apply In_listed. split; [exact Hl' | reflexivity].
    + unfold Gui.row_of. cbn [Gui.v_id Gui.v_status]. rewrite El'.
      split; reflexivity.
  - destruct a; reflexivity.
Qed.

Lemma window_cancel_selected_row_witness :
  let d := run [CreateBooking "Ann" "Single" "2024-01-10" "2024-01-12" "t1"]
               seeded in
  let a := Gui.load_bookings (Gui.mkApp d []) in
  let first := Gui.mkRow 1 "Ann" "Single S101" "2024-01-10" "2024-01-12"
                         "active" in
  (reachable (Gui.database a) /\ Gui.up_to_date a /\ In first (Gui.tree a)) /\
  ((Gui.v_status first = "active" ->
    exists a',
      Gui.cancel_booking_clicked "t2" [first] a
        = (Gui.ShowInfoCancelled (Gui.v_id first), a') /\
      exists shown,
        In shown (Gui.tree a') /\ Gui.v_id shown = Gui.v_id first /\
        Gui.v_status shown = "cancelled") /\
   (Gui.v_status first = "cancelled" ->
    Gui.cancel_booking_clicked "t2" [first] a
      = (Gui.ShowError AlreadyCancelled, a))).
Proof.
  intros d a first.
  assert (reachable (Gui.database a)) as R by apply reachable_seeded.
  assert (Gui.up_to_date a) as U by reflexivity.
  assert (In first (Gui.tree a)) as I by (left; reflexivity).
  split; [split; [exact R | split; [exact U | exact I]]|].
  exact (window_cancel_selected_row "t2" first [] a R U I).
Defined.

Lemma init_db_idempotent_witness :
  init_db (init_db empty_db) = init_db empty_db /\
  bookings (init_db empty_db) = bookings empty_db /\
  (rooms empty_db <> [] -> init_db empty_db = empty_db) /\
  (rooms empty_db = [] -> rooms (init_db empty_db) = rooms seeded).
Proof. exact (init_db_idempotent empty_db). Defined.

Lemma availability_monotone_witness :
  let d := run [CreateBooking "Ann" "Single" "2024-01-10" "2024-01-12" "t1"]
               seeded in
  let r := mkRoom 2 "Single" "S102" (1500 # 1) in
  (forall g t0 ci0 co0 now,
     In r (Sql.select_available
             (snd (create_booking g t0 ci0 co0 now d))
             "Single" "2024-01-11" "2024-01-13") ->
     In r (Sql.select_available d "Single" "2024-01-11" "2024-01-13")) /\
  (forall i now,
     In r (Sql.select_available d "Single" "2024-01-11" "2024-01-13") ->
     In r (Sql.select_available (snd (cancel_booking i now d))
             "Single" "2024-01-11" "2024-01-13")).
Proof.
  intros d r.
  exact (availability_monotone d r "Single" "2024-01-11" "2024-01-13").
Defined.

Lemma console_quits_on_five_witness :
  let E := Console.mkEnv true (fun _ => "2024-01-01T00:00:00") in
  let stdin := ["3"; "x"; " 5"; "1"] in
  (Console.ended (Console.main_menu E 0 stdin seeded) = Console.Quit <->
   In "5" (Console.choices stdin)) /\
  (Console.ended (Console.main_menu E 0 stdin seeded) = Console.Quit ->
   exists out,
     Console.printed (Console.main_menu E 0 stdin seeded)
     = out ++ [Console.Goodbye]).
Proof.
  intros E stdin. exact (console_quits_on_five E 0 stdin seeded).
Defined.

Lemma console_error_keeps_db_witness :
  (forall guest room_type check_in check_out,
     fst (Console.create_choice "t" guest room_type check_in check_out seeded)
       = Console.Error (Console.Engine InvalidDate) ->
     snd (Console.create_choice "t" guest room_type check_in check_out seeded)
       = seeded) /\
  (forall bid,
     fst (Console.cancel_choice "t" bid seeded)
       = Console.Error (Console.Engine InvalidDate) ->
     snd (Console.cancel_choice "t" bid seeded) = seeded).
Proof.
  exact (console_error_keeps_db "t" seeded (Console.Engine InvalidDate)).
Defined.

(** A session at the console, as the model runs it. *)
Example console_session :
  let E := Console.mkEnv false
             (fun n => match n with O => "t0" | _ => "t1" end) in
  let r := Console.main_menu E 0
             ["1"; "Ann"; "Single"; "2024-01-10"; "2024-01-12";
              " 2 "; " 1 "; "2"; "1"; "2"; "x1"; "4"; "3"; "9"; "5"]
             seeded in
  Console.printed r =
    [Console.Menu; Console.BookingCreated 1 "S101";
     Console.Menu; Console.BookingCancelled;
     Console.Menu; Console.Error (Console.Engine AlreadyCancelled);
     Console.Menu; Console.Error Console.Other;
     Console.Menu; Console.Formats; Console.Error Console.Other;
     Console.Menu; Console.InvalidChoice;
     Console.Menu; Console.Goodbye] /\
  Console.ended r = Console.Quit /\
  map b_status (bookings (Console.final_db r)) = ["cancelled"].
Proof. repeat split. Qed.

(** What [int] reads: blanks around the number, a sign, digits of any
    script with single underscores between them. *)
Example py_int_samples :
  map Console.py_int
      ["12"; " 12 "; "+1_000"; "-7"; "0012"; "_1"; "1_"; "1__0"; ""; "+";
       "0x10"; "1 2"; "--1"; "- 1";
       (Unicode.encode 160 ++ "12" ++ Unicode.encode 12288)%string;
       (Unicode.encode 28 ++ "1")%string;
       (Unicode.encode 1633 ++ Unicode.encode 65298)%string]
  = [Some 12; Some 12; Some 1000; Some (-7); Some 12; None; None; None;
     None; None; None; None; None; None; Some 12; None; Some 12].
Proof. reflexivity. Qed.

(** A choice typed after a no-break space is the choice: [str.strip]
    removes the whitespace of every script. *)
Example console_no_break_space :
  let E := Console.mkEnv false (fun _ => "t0") in
  let nbsp := Unicode.encode 160 in
  Console.strip (nbsp ++ " 5" ++ Unicode.encode 8195)%string = "5" /\
  Console.main_menu E 0 [(nbsp ++ "5")%string] seeded
    = ([Console.Menu; Console.Goodbye], seeded, Console.Quit) /\
  Console.printed
    (Console.main_menu E 0
       [(nbsp ++ "1")%string; "Ann"; "Single"; "2024-01-10"; "2024-01-12";
        "5"] seeded)
    = [Console.Menu; Console.BookingCreated 1 "S101";
       Console.Menu; Console.Goodbye].
Proof. repeat split. Qed.

(** Digits of other scripts in a date: accepted where the pattern has
    [\d], the year and the second digit of a day from 10 to 29. *)
Example parse_date_other_digits :
  let fw d := Unicode.encode (65296 + d) in
  parse_date (fw 2 ++ fw 0 ++ fw 2 ++ fw 4 ++ "-01-10")%string
    = Some (Date.mkDate 2024 1 10) /\
  parse_date ("2024-01-1" ++ fw 0)%string = Some (Date.mkDate 2024 1 10) /\
  parse_date ("2024-01-" ++ fw 1 ++ "0")%string = None /\
  parse_date ("2024-" ++ fw 0 ++ "1-10")%string = None /\
  zero_padded (fw 2 ++ fw 0 ++ fw 2 ++ fw 4 ++ "-01-10")%string = false.
Proof. repeat split. Qed.
